(** * The CustomDomainRegistration reconciler

    A shallow embedding of [controllers/customdomainregistration_controller.go]
    (package [controllers] of the k8s domain controller) and the properties
    of its reconcile pass: binding and unbinding a registration on the shared
    [CustomDomain], the verification step, the merge of status conditions and
    the finalizer protocol.

    Go packages are rendered as modules, structs as records, a method that
    talks to the cluster as a function in a state monad over [World]. *)

From Stdlib Require Import String List Bool Arith Lia.
From stdpp Require Import base gmap strings list fin_maps.

Set Implicit Arguments.
Set Default Proof Using "Type".

Local Open Scope string_scope.
Local Open Scope list_scope.

(** ** Errors *)

(** A Go [error] value.  [ErrNotFound], [ErrAlreadyExists] and [ErrConflict]
    are the API status errors the store answers with; [ErrStore] is any other
    read or write failure; [ErrNaming] is what the DNS naming rule fails
    with. *)
Inductive error : Type :=
| ErrNotFound
| ErrAlreadyExists
| ErrConflict
| ErrStore (msg : string)
| ErrNaming (msg : string).

(** [err.Error()] *)
Definition Error (e : error) : string :=
  match e with
  | ErrNotFound => "not found"
  | ErrAlreadyExists => "already exists"
  | ErrConflict => "the object has been modified"
  | ErrStore msg => msg
  | ErrNaming msg => msg
  end.

(** A call that fills an object through a pointer and returns an [error]:
    the object on success, the error otherwise. *)
Inductive outcome (A : Type) : Type :=
| Ok (a : A)
| Err (e : error).
Arguments Ok {A} a.
Arguments Err {A} e.

Module apierrors.
(** [apierrors.IsNotFound]; false on a nil error. *)
Definition IsNotFound (err : option error) : bool :=
  match err with
  | Some ErrNotFound => true
  | _ => false
  end.
End apierrors.

(** ** Kubernetes object model *)

Module metav1.
Definition Time := nat.

Inductive ConditionStatus := ConditionTrue | ConditionFalse | ConditionUnknown.

Definition ConditionStatus_eqb (a b : ConditionStatus) : bool :=
  match a, b with
  | ConditionTrue, ConditionTrue
  | ConditionFalse, ConditionFalse
  | ConditionUnknown, ConditionUnknown => true
  | _, _ => false
  end.

Record TypeMeta := {
  APIVersion : string;
  Kind : string
}.

Record ObjectMeta := {
  Name : string;
  Namespace : string;
  UID : string;
  ResourceVersion : nat;
  DeletionTimestamp : option Time;
  Finalizers : list string
}.

Definition with_ResourceVersion (m : ObjectMeta) (rv : nat) : ObjectMeta :=
  {| Name := Name m; Namespace := Namespace m; UID := UID m;
     ResourceVersion := rv;
     DeletionTimestamp := DeletionTimestamp m;
     Finalizers := Finalizers m |}.

Definition with_Finalizers (m : ObjectMeta) (fs : list string) : ObjectMeta :=
  {| Name := Name m; Namespace := Namespace m; UID := UID m;
     ResourceVersion := ResourceVersion m;
     DeletionTimestamp := DeletionTimestamp m;
     Finalizers := fs |}.
End metav1.

Module corev1.
Record ObjectReference := {
  APIVersion : string;
  Kind : string;
  Name : string;
  Namespace : string;
  UID : string
}.
End corev1.

Module api.
Record Condition := {
  Type_ : string;
  Status : metav1.ConditionStatus;
  LastTransitionTime : metav1.Time;
  Message : string
}.

Definition with_LastTransitionTime (c : Condition) (t : metav1.Time) : Condition :=
  {| Type_ := Type_ c; Status := Status c;
     LastTransitionTime := t; Message := Message c |}.
End api.

Module domainv1beta1.
Record CustomDomainDNSRecord := {
  Name : string;
  Type_ : string;
  Value : string
}.

Record CustomDomainSpec := {
  Registrations : list corev1.ObjectReference;
  VerificationKey : option string
}.

Record CustomDomainLoadBalancerStatus := {
  DNSRecords : list CustomDomainDNSRecord
}.

Record CustomDomainStatus := {
  LoadBalancer : CustomDomainLoadBalancerStatus
}.

Record CustomDomain := {
  TypeMeta : metav1.TypeMeta;
  ObjectMeta : metav1.ObjectMeta;
  Spec : CustomDomainSpec;
  Status : CustomDomainStatus
}.

Record CustomDomainRegistrationStatus := {
  Conditions : list api.Condition;
  RegDNSRecords : list CustomDomainDNSRecord
}.

Record CustomDomainRegistration := {
  RegTypeMeta : metav1.TypeMeta;
  RegObjectMeta : metav1.ObjectMeta;
  RegStatus : CustomDomainRegistrationStatus
}.

(** Modelled from the spec: the condition type constants
    [RegistrationAccepted] and [RegistrationVerified] of the API package,
    whose declarations are not part of the controller file; the data model
    names the two tracked types [Accepted] and [Verified]. *)
Definition RegistrationAccepted : string := "Accepted".
Definition RegistrationVerified : string := "Verified".

(** The zero values Go starts a [var] declaration with. *)
Definition zeroTypeMeta : metav1.TypeMeta :=
  {| metav1.APIVersion := ""; metav1.Kind := "" |}.
Definition zeroStatus : CustomDomainStatus :=
  {| LoadBalancer := {| DNSRecords := [] |} |}.

(** [domain.DeepCopy()].  Objects are values here, so the copy is the
    object itself. *)
Definition DeepCopy (d : CustomDomain) : CustomDomain := d.

Definition domain_with_Registrations (d : CustomDomain)
    (regs : list corev1.ObjectReference) : CustomDomain :=
  {| TypeMeta := TypeMeta d; ObjectMeta := ObjectMeta d;
     Spec := {| Registrations := regs;
                VerificationKey := VerificationKey (Spec d) |};
     Status := Status d |}.

Definition domain_with_ResourceVersion (d : CustomDomain) (rv : nat)
    : CustomDomain :=
  {| TypeMeta := TypeMeta d;
     ObjectMeta := metav1.with_ResourceVersion (ObjectMeta d) rv;
     Spec := Spec d; Status := Status d |}.

Definition reg_with_ObjectMeta (r : CustomDomainRegistration)
    (m : metav1.ObjectMeta) : CustomDomainRegistration :=
  {| RegTypeMeta := RegTypeMeta r; RegObjectMeta := m;
     RegStatus := RegStatus r |}.

Definition reg_with_Status (r : CustomDomainRegistration)
    (s : CustomDomainRegistrationStatus) : CustomDomainRegistration :=
  {| RegTypeMeta := RegTypeMeta r; RegObjectMeta := RegObjectMeta r;
     RegStatus := s |}.

Definition reg_with_Conditions (r : CustomDomainRegistration)
    (cs : list api.Condition) : CustomDomainRegistration :=
  reg_with_Status r
    {| Conditions := cs; RegDNSRecords := RegDNSRecords (RegStatus r) |}.

Definition reg_with_DNSRecords (r : CustomDomainRegistration)
    (rs : list CustomDomainDNSRecord) : CustomDomainRegistration :=
  reg_with_Status r
    {| Conditions := Conditions (RegStatus r); RegDNSRecords := rs |}.

(** [types.NamespacedName] of a registration, the key it is stored and
    delivered under. *)
Definition key_of (r : CustomDomainRegistration) : string * string :=
  (metav1.Namespace (RegObjectMeta r), metav1.Name (RegObjectMeta r)).
End domainv1beta1.

Import domainv1beta1.

(** ** The cluster and the client *)

(** The reconciler reaches the cluster through [client.Client], an external
    collaborator.  It is modelled by its contract: [Get] answers with the
    stored object or not-found; [Create] refuses a name that is taken;
    [Update] and [Status().Update] send the whole object with the version
    the caller read and are rejected with a conflict when the stored object
    has moved on, the latter replacing the status only; [Patch] sends the
    merge patch built by [client.MergeFrom], which carries no version and is
    applied to whatever is stored.

    Every call can also fail for reasons of its own, and other writers act
    on the shared [CustomDomain] between two calls of a pass.  Both come from
    a script the world carries: each call consumes one event. *)
Inductive Event : Type :=
| Serve                               (* the call reaches the store *)
| Fault (e : error)                   (* the call fails with [e], nothing is written *)
| Concurrent (d : CustomDomain).      (* another writer stores [d] first, then the call is served *)

Inductive Call : Type :=
| GetRegistration (key : string * string)
| UpdateRegistration (key : string * string)
| UpdateRegistrationStatus (key : string * string)
| GetDomain (name : string)
| CreateDomain (name : string)
| PatchDomain (name : string).

Record World := {
  domains : gmap string CustomDomain;
  registrations : gmap (string * string) CustomDomainRegistration;
  script : list Event;
  calls : list Call;                  (* the calls made so far, oldest first *)
  clock : metav1.Time                 (* the reconciling instant, [metav1.Now()] *)
}.

Definition M (A : Type) : Type := World -> A * World.

Definition ret {A} (a : A) : M A := fun w => (a, w).
Definition bind {A B} (c : M A) (k : A -> M B) : M B :=
  fun w => let (a, w') := c w in k a w'.

Notation "'let*' p ':=' c 'in' k" := (bind c (fun p => k))
  (at level 10, p pattern, c at level 100, k at level 200).

Module client.
Definition domain_name (d : CustomDomain) : string :=
  metav1.Name (ObjectMeta d).
Definition domain_version (d : CustomDomain) : nat :=
  metav1.ResourceVersion (ObjectMeta d).
Definition reg_version (r : CustomDomainRegistration) : nat :=
  metav1.ResourceVersion (RegObjectMeta r).

(** What another writer leaves in the store: its object under the next
    version. *)
Definition concurrent_write (d : CustomDomain)
    (ds : gmap string CustomDomain) : gmap string CustomDomain :=
  let rv := match ds !! domain_name d with
            | Some old => domain_version old
            | None => 0
            end in
  <[domain_name d := domain_with_ResourceVersion d (S rv)]> ds.

(** The domains as other writers leave them by the time the next call is
    served. *)
Definition domains_at_next_call (w : World) : gmap string CustomDomain :=
  match script w with
  | Concurrent d :: _ => concurrent_write d (domains w)
  | _ => domains w
  end.

(** The failure the script has in store for the next call, if any. *)
Definition next_fault (w : World) : option error :=
  match script w with
  | Fault e :: _ => Some e
  | _ => None
  end.

(** The world once call [c] has been received: the call is logged, one
    event of the script is consumed (an exhausted script serves the call)
    and the other writers have acted. *)
Definition after_call (c : Call) (w : World) : World :=
  {| domains := domains_at_next_call w;
     registrations := registrations w;
     script := tail (script w);
     calls := calls w ++ [c];
     clock := clock w |}.

(** Start of every call. *)
Definition begin (c : Call) : M (option error) := fun w =>
  (next_fault w, after_call c w).

Definition put_domain (d : CustomDomain) : M unit := fun w =>
  (tt, {| domains := <[domain_name d := d]> (domains w);
          registrations := registrations w;
          script := script w; calls := calls w; clock := clock w |}).

Definition put_registration (key : string * string)
    (r : CustomDomainRegistration) : M unit := fun w =>
  (tt, {| domains := domains w;
          registrations := <[key := r]> (registrations w);
          script := script w; calls := calls w; clock := clock w |}).

(** [r.Get(ctx, types.NamespacedName{Name: name}, &domain)] *)
Definition Get_CustomDomain (name : string) : M (outcome CustomDomain) :=
  let* fault := begin (GetDomain name) in
  match fault with
  | Some e => ret (Err e)
  | None => fun w =>
      match domains w !! name with
      | Some d => (Ok d, w)
      | None => (Err ErrNotFound, w)
      end
  end.

(** [r.Get(ctx, req.NamespacedName, &reg)] *)
Definition Get_CustomDomainRegistration (key : string * string)
    : M (outcome CustomDomainRegistration) :=
  let* fault := begin (GetRegistration key) in
  match fault with
  | Some e => ret (Err e)
  | None => fun w =>
      match registrations w !! key with
      | Some r => (Ok r, w)
      | None => (Err ErrNotFound, w)
      end
  end.

(** [r.Create(ctx, &domain)] *)
Definition Create (d : CustomDomain) : M (outcome CustomDomain) :=
  let* fault := begin (CreateDomain (domain_name d)) in
  match fault with
  | Some e => ret (Err e)
  | None => fun w =>
      match domains w !! domain_name d with
      | Some _ => (Err ErrAlreadyExists, w)
      | None =>
          let d' := domain_with_ResourceVersion d 1 in
          let (_, w') := put_domain d' w in (Ok d', w')
      end
  end.

(** [client.MergeFrom(base)]: a JSON merge patch, made of the fields in
    which the patched object differs from the snapshot [base].  It is built
    without [MergeFromWithOptimisticLock], so it holds no resourceVersion. *)
Record Patch := MergeFrom { base : CustomDomain }.

Definition same_reference (a b : corev1.ObjectReference) : bool :=
  String.eqb (corev1.APIVersion a) (corev1.APIVersion b)
  && String.eqb (corev1.Kind a) (corev1.Kind b)
  && String.eqb (corev1.Name a) (corev1.Name b)
  && String.eqb (corev1.Namespace a) (corev1.Namespace b)
  && String.eqb (corev1.UID a) (corev1.UID b).

Fixpoint same_references (l1 l2 : list corev1.ObjectReference) : bool :=
  match l1, l2 with
  | [], [] => true
  | a :: l1, b :: l2 => same_reference a b && same_references l1 l2
  | _, _ => false
  end.

Definition same_key (a b : option string) : bool :=
  match a, b with
  | Some x, Some y => String.eqb x y
  | None, None => true
  | _, _ => false
  end.

(** Whether the patch of [modified] against [based] is empty.  The callers
    change nothing but the spec between the snapshot and the patch. *)
Definition empty_patch (based modified : CustomDomain) : bool :=
  same_references (Registrations (Spec modified)) (Registrations (Spec based))
  && same_key (VerificationKey (Spec modified)) (VerificationKey (Spec based)).

(** The object a merge patch leaves in the store: a spec field in which
    [modified] differs from [based] is written over the stored one (a list
    as a whole), everything else stays as stored; the version moves on when
    something was written. *)
Definition patched (based modified stored : CustomDomain) : CustomDomain :=
  {| TypeMeta := TypeMeta stored;
     ObjectMeta :=
       metav1.with_ResourceVersion (ObjectMeta stored)
         (if empty_patch based modified then domain_version stored
          else S (domain_version stored));
     Spec :=
       {| Registrations :=
            if same_references (Registrations (Spec modified))
                 (Registrations (Spec based))
            then Registrations (Spec stored)
            else Registrations (Spec modified);
          VerificationKey :=
            if same_key (VerificationKey (Spec modified))
                 (VerificationKey (Spec based))
            then VerificationKey (Spec stored)
            else VerificationKey (Spec modified) |};
     Status := Status stored |}.

(** [r.Patch(ctx, &domain, patch)]: the patch is applied to the object
    stored under the name of [domain], whatever its version, and the result
    is handed back in [domain]. *)
Definition Patch_ (d : CustomDomain) (patch : Patch)
    : M (outcome CustomDomain) :=
  let* fault := begin (PatchDomain (domain_name d)) in
  match fault with
  | Some e => ret (Err e)
  | None => fun w =>
      match domains w !! domain_name d with
      | None => (Err ErrNotFound, w)
      | Some stored =>
          let d' := patched (base patch) d stored in
          (Ok d',
           {| domains := <[domain_name d := d']> (domains w);
              registrations := registrations w;
              script := script w; calls := calls w; clock := clock w |})
      end
  end.

(** [r.Update(ctx, &reg)].  What the garbage collector does with an object
    that is being deleted once its last finalizer is gone is not modelled:
    the object stays in the store, without the marker. *)
Definition Update (r : CustomDomainRegistration)
    : M (outcome CustomDomainRegistration) :=
  let* fault := begin (UpdateRegistration (key_of r)) in
  match fault with
  | Some e => ret (Err e)
  | None => fun w =>
      match registrations w !! key_of r with
      | None => (Err ErrNotFound, w)
      | Some stored =>
          if Nat.eqb (reg_version stored) (reg_version r) then
            let r' := reg_with_ObjectMeta r
                        (metav1.with_ResourceVersion (RegObjectMeta r)
                           (S (reg_version stored))) in
            let (_, w') := put_registration (key_of r) r' w in (Ok r', w')
          else (Err ErrConflict, w)
      end
  end.

(** [r.Status().Update(ctx, &reg)]: only the status of the stored object
    is replaced. *)
Definition Status_Update (r : CustomDomainRegistration)
    : M (outcome CustomDomainRegistration) :=
  let* fault := begin (UpdateRegistrationStatus (key_of r)) in
  match fault with
  | Some e => ret (Err e)
  | None => fun w =>
      match registrations w !! key_of r with
      | None => (Err ErrNotFound, w)
      | Some stored =>
          if Nat.eqb (reg_version stored) (reg_version r) then
            let r' := reg_with_Status
                        (reg_with_ObjectMeta stored
                           (metav1.with_ResourceVersion (RegObjectMeta stored)
                              (S (reg_version stored))))
                        (RegStatus r) in
            let (_, w') := put_registration (key_of r) r' w in (Ok r', w')
          else (Err ErrConflict, w)
      end
  end.

(** The next [n] calls are served by the store with no other writer in
    between: the script holds no fault and no concurrent write for them. *)
Fixpoint undisturbed (n : nat) (s : list Event) : bool :=
  match n, s with
  | 0, _ => true
  | S _, [] => true
  | S n, Serve :: s => undisturbed n s
  | S _, _ :: _ => false
  end.

(** [client.IgnoreNotFound] *)
Definition IgnoreNotFound (err : option error) : option error :=
  if apierrors.IsNotFound err then None else err.
End client.

(** ** Utility packages the controller imports *)

Module slice.
(** Modelled from the spec: [slice.ContainsObjectReference] and
    [slice.RemoveObjectReference] of package [util/slice], which is not
    part of the controller file.  Section 4.2: a reference matches an
    object on (namespace, name, UID); [contains] holds iff some element
    matches; [remove] drops every matching element and keeps the order of
    the others. *)
Definition matches (obj : metav1.ObjectMeta) (ref : corev1.ObjectReference) : bool :=
  String.eqb (corev1.Namespace ref) (metav1.Namespace obj)
  && String.eqb (corev1.Name ref) (metav1.Name obj)
  && String.eqb (corev1.UID ref) (metav1.UID obj).

Definition ContainsObjectReference (refs : list corev1.ObjectReference)
    (obj : CustomDomainRegistration) : bool :=
  existsb (matches (RegObjectMeta obj)) refs.

Definition RemoveObjectReference (refs : list corev1.ObjectReference)
    (obj : CustomDomainRegistration) : list corev1.ObjectReference :=
  List.filter (fun ref => negb (matches (RegObjectMeta obj) ref)) refs.
End slice.

Module condition.
(** Modelled from the spec: [condition.ToStatus] and [condition.MergeFrom]
    of package [util/condition], which is not part of the controller file.
    Section 4.1: a new condition whose type was in the previous set with
    the same status keeps the previous [lastTransitionTime]; any other new
    condition gets the reconciling instant; the output has the new
    conditions in their order and nothing else. *)
Definition ToStatus (b : bool) : metav1.ConditionStatus :=
  if b then metav1.ConditionTrue else metav1.ConditionFalse.

(** [p] is a previous condition that [c] continues: same type, same
    status. *)
Definition continues (c p : api.Condition) : bool :=
  String.eqb (api.Type_ p) (api.Type_ c)
  && metav1.ConditionStatus_eqb (api.Status p) (api.Status c).

Definition merge_one (now : metav1.Time) (previous : list api.Condition)
    (c : api.Condition) : api.Condition :=
  match List.find (continues c) previous with
  | Some p => api.with_LastTransitionTime c (api.LastTransitionTime p)
  | None => api.with_LastTransitionTime c now
  end.

Definition merge (now : metav1.Time) (conditions previous : list api.Condition)
    : list api.Condition :=
  List.map (merge_one now previous) conditions.

(** [condition.MergeFrom(conditions, previous)] rewrites [conditions] in
    place; the rewritten slice is the result here. *)
Definition MergeFrom (conditions previous : list api.Condition)
    : M (list api.Condition) :=
  fun w => (merge (clock w) conditions previous, w).
End condition.

Module finalizer.
(** Modelled from the spec: [finalizer.Ensure] and [finalizer.Remove] of
    package [util/finalizer], which is not part of the controller file.
    Section 4.3: [ensure] adds the marker and persists the object when the
    marker is missing, and says whether it added it; [remove] drops the
    marker and persists the object. *)
Definition has (marker : string) (obj : CustomDomainRegistration) : bool :=
  existsb (String.eqb marker) (metav1.Finalizers (RegObjectMeta obj)).

Definition Ensure (obj : CustomDomainRegistration) (marker : string)
    : M (CustomDomainRegistration * bool * option error) :=
  if has marker obj then ret (obj, false, None)
  else
    let obj := reg_with_ObjectMeta obj
                 (metav1.with_Finalizers (RegObjectMeta obj)
                    (metav1.Finalizers (RegObjectMeta obj) ++ [marker])) in
    let* updated := client.Update obj in
    match updated with
    | Err err => ret (obj, false, Some err)
    | Ok obj => ret (obj, true, None)
    end.

Definition Remove (obj : CustomDomainRegistration) (marker : string)
    : M (CustomDomainRegistration * option error) :=
  let obj := reg_with_ObjectMeta obj
               (metav1.with_Finalizers (RegObjectMeta obj)
                  (List.filter (fun f => negb (String.eqb marker f))
                     (metav1.Finalizers (RegObjectMeta obj)))) in
  let* updated := client.Update obj in
  match updated with
  | Err err => ret (obj, Some err)
  | Ok obj => ret (obj, None)
  end.
End finalizer.

Module ctrl.
Record Result := { Requeue : bool }.
End ctrl.

(** ** The controller *)

Module controllers.
Section Reconciler.

(** The [VerificationTokenGenerator] field of the reconciler. *)
Variable VerificationTokenGenerator : string -> string -> string.
(** [verification.MakeDNSRecordName], the DNS naming rule. *)
Variable MakeDNSRecordName : string -> outcome string.
(** [domain.DomainFinalizer], the marker of this controller. *)
Variable DomainFinalizer : string.

Definition regName (reg : CustomDomainRegistration) : string :=
  metav1.Name (RegObjectMeta reg).

Definition regRefOf (reg : CustomDomainRegistration) : corev1.ObjectReference :=
  {| corev1.APIVersion := metav1.APIVersion (RegTypeMeta reg);
     corev1.Kind := metav1.Kind (RegTypeMeta reg);
     corev1.Name := metav1.Name (RegObjectMeta reg);
     corev1.Namespace := metav1.Namespace (RegObjectMeta reg);
     corev1.UID := metav1.UID (RegObjectMeta reg) |}.

Definition registerDomain (reg : CustomDomainRegistration) : M (option error) :=
  let* got := client.Get_CustomDomain (regName reg) in
  let regRef := regRefOf reg in
  match got with
  | Err err =>
      if negb (apierrors.IsNotFound (Some err)) then ret (Some err)
      else
        let domain :=
          {| TypeMeta := zeroTypeMeta;
             ObjectMeta :=
               {| metav1.Name := regName reg; metav1.Namespace := "";
                  metav1.UID := ""; metav1.ResourceVersion := 0;
                  metav1.DeletionTimestamp := None;
                  metav1.Finalizers := [] |};
             Spec := {| Registrations := [regRef]; VerificationKey := None |};
             Status := zeroStatus |} in
        let* created := client.Create domain in
        match created with
        | Err err => ret (Some err)
        | Ok _ => ret None
        end
  | Ok domain =>
      if negb (slice.ContainsObjectReference (Registrations (Spec domain)) reg) then
        let patch := client.MergeFrom (DeepCopy domain) in
        let domain := domain_with_Registrations domain
                        (Registrations (Spec domain) ++ [regRef]) in
        let* patched := client.Patch_ domain patch in
        match patched with
        | Err err => ret (Some err)
        | Ok _ => ret None
        end
      else ret None
  end.

Definition unregisterDomain (reg : CustomDomainRegistration)
    : M (bool * option error) :=
  let* got := client.Get_CustomDomain (regName reg) in
  match got with
  | Err err =>
      if apierrors.IsNotFound (Some err) then ret (false, None)
      else ret (false, Some err)
  | Ok domain =>
      let* after :=
        if slice.ContainsObjectReference (Registrations (Spec domain)) reg then
          let patch := client.MergeFrom (DeepCopy domain) in
          let domain := domain_with_Registrations domain
                          (slice.RemoveObjectReference
                             (Registrations (Spec domain)) reg) in
          client.Patch_ domain patch
        else ret (Ok domain) in
      match after with
      | Err err => ret (false, Some err)
      | Ok domain =>
          let registered :=
            slice.ContainsObjectReference (Registrations (Spec domain)) reg in
          ret (registered, None)
      end
  end.

(** [cond.Type == string(domainv1beta1.RegistrationVerified)] *)
Definition isVerifiedType (cond : api.Condition) : bool :=
  String.eqb (api.Type_ cond) RegistrationVerified.

(** The loop over [reg.Status.Conditions]: the first condition of type
    [RegistrationVerified] decides, and the loop stops there. *)
Fixpoint lastVerified (conds : list api.Condition) : bool * metav1.Time :=
  match conds with
  | [] => (false, 0)
  | cond :: rest =>
      if isVerifiedType cond then
        (metav1.ConditionStatus_eqb (api.Status cond) metav1.ConditionTrue,
         api.LastTransitionTime cond)
      else lastVerified rest
  end.

(** [reg] is passed by pointer and comes back with its [DNSRecords] set. *)
Definition verifyDomainIfNeeded (reg : CustomDomainRegistration)
    : M (CustomDomainRegistration * bool * option error) :=
  let* got := client.Get_CustomDomain (regName reg) in
  match got with
  | Err err => ret (reg, false, Some err)
  | Ok domain =>
      match VerificationKey (Spec domain) with
      | None => ret (reg, false, None)
      | Some key =>
          let token := VerificationTokenGenerator key (metav1.UID (RegObjectMeta reg)) in
          match MakeDNSRecordName (metav1.Name (ObjectMeta domain)) with
          | Err err => ret (reg, false, Some err)
          | Ok dnsRecordName =>
              let records :=
                DNSRecords (LoadBalancer (Status domain))
                ++ [ {| Name := dnsRecordName; Type_ := "TXT"; Value := token |} ] in
              let reg := reg_with_DNSRecords reg records in
              let '(currentVerified, lastVerifyTime) :=
                lastVerified (Conditions (RegStatus reg)) in
              if currentVerified then ret (reg, true, None)
              else ret (reg, false, None)
          end
      end
  end.

(** How a branch of [Reconcile] ends: with a [return], or by falling
    through to the status update with the conditions it produced. *)
Inductive branch : Type :=
| Return_ (res : ctrl.Result) (err : option error)
| Proceed (reg : CustomDomainRegistration) (conditions : list api.Condition)
          (doFinalize : bool).

Definition condition_of (type : string) (status : metav1.ConditionStatus)
    (message : string) : api.Condition :=
  {| api.Type_ := type; api.Status := status;
     api.LastTransitionTime := 0; api.Message := message |}.

Definition normalBranch (reg : CustomDomainRegistration) : M branch :=
  let* (reg, finalizerAdded, err) := finalizer.Ensure reg DomainFinalizer in
  match err with
  | Some err => ret (Return_ {| ctrl.Requeue := false |} (Some err))
  | None =>
      if finalizerAdded then ret (Return_ {| ctrl.Requeue := true |} None)
      else
        let* err := registerDomain reg in
        match err with
        | Some err => ret (Return_ {| ctrl.Requeue := false |} (Some err))
        | None =>
            let* (reg, verified, err) := verifyDomainIfNeeded reg in
            match err with
            | Some err =>
                ret (Proceed reg
                       [condition_of RegistrationVerified
                          metav1.ConditionUnknown (Error err)]
                       false)
            | None =>
                ret (Proceed reg
                       [condition_of RegistrationVerified
                          (condition.ToStatus verified) ""]
                       false)
            end
        end
  end.

Definition deletionBranch (reg : CustomDomainRegistration) : M branch :=
  let doFinalize := true in
  let* (registered, err) := unregisterDomain reg in
  match err with
  | Some err =>
      let doFinalize := false in
      ret (Proceed reg
             [condition_of RegistrationAccepted
                metav1.ConditionUnknown (Error err)]
             doFinalize)
  | None =>
      let doFinalize := doFinalize && negb registered in
      ret (Proceed reg
             [condition_of RegistrationAccepted
                (condition.ToStatus registered) ""]
             doFinalize)
  end.

(** [if reg.DeletionTimestamp == nil { ... } else { ... }] *)
Definition runBranch (reg : CustomDomainRegistration) : M branch :=
  match metav1.DeletionTimestamp (RegObjectMeta reg) with
  | None => normalBranch reg
  | Some _ => deletionBranch reg
  end.

(** The tail of [Reconcile], after either branch: merge the produced
    conditions against the persisted ones, update the status, and remove
    the finalizer when the branch asked for it. *)
Definition persist (reg : CustomDomainRegistration)
    (conditions : list api.Condition) (doFinalize : bool)
    : M (ctrl.Result * option error) :=
  let* conditions :=
    condition.MergeFrom conditions (Conditions (RegStatus reg)) in
  let reg := reg_with_Conditions reg conditions in
  let* updated := client.Status_Update reg in
  match updated with
  | Err err => ret ({| ctrl.Requeue := false |}, Some err)
  | Ok reg =>
      if doFinalize then
        let* (_, err) := finalizer.Remove reg DomainFinalizer in
        ret ({| ctrl.Requeue := false |}, err)
      else ret ({| ctrl.Requeue := false |}, None)
  end.

Definition Reconcile (req : string * string) : M (ctrl.Result * option error) :=
  let* got := client.Get_CustomDomainRegistration req in
  match got with
  | Err err => ret ({| ctrl.Requeue := false |}, client.IgnoreNotFound (Some err))
  | Ok reg =>
      let* b := runBranch reg in
      match b with
      | Return_ res err => ret (res, err)
      | Proceed reg conditions doFinalize => persist reg conditions doFinalize
      end
  end.

(** The registration the status update is sent for: [reg] with the
    produced conditions merged against the ones it was read with. *)
Definition submitted (now : metav1.Time) (reg : CustomDomainRegistration)
    (conditions : list api.Condition) : CustomDomainRegistration :=
  reg_with_Conditions reg
    (condition.merge now conditions (Conditions (RegStatus reg))).

(** The store failures [Reconcile] returns on: [aborting req w e] says that
    in the pass for [req] started in [w] the failing call is the read of
    the registration (not-found apart), the write that ensures the
    finalizer, a call made by [registerDomain], or the status update, and
    that it fails with [e]. *)
Inductive aborting (req : string * string) (w : World) (e : error) : Prop :=
| registration_read_fails w1 :
    client.Get_CustomDomainRegistration req w = (Err e, w1) ->
    apierrors.IsNotFound (Some e) = false ->
    aborting req w e
| finalizer_write_fails reg w1 obj w2 :
    client.Get_CustomDomainRegistration req w = (Ok reg, w1) ->
    metav1.DeletionTimestamp (RegObjectMeta reg) = None ->
    finalizer.Ensure reg DomainFinalizer w1 = ((obj, false, Some e), w2) ->
    aborting req w e
| register_fails reg w1 w2 :
    client.Get_CustomDomainRegistration req w = (Ok reg, w1) ->
    metav1.DeletionTimestamp (RegObjectMeta reg) = None ->
    finalizer.has DomainFinalizer reg = true ->
    registerDomain reg w1 = (Some e, w2) ->
    aborting req w e
| status_update_fails reg w1 reg' conditions doFinalize w2 w3 :
    client.Get_CustomDomainRegistration req w = (Ok reg, w1) ->
    runBranch reg w1 = (Proceed reg' conditions doFinalize, w2) ->
    client.Status_Update (submitted (clock w2) reg' conditions) w2 = (Err e, w3) ->
    aborting req w e.

(** The store failures [Reconcile] records instead: [recorded req w e type
    reg w2] says that the pass reached [unregisterDomain] (and [type] is
    [Accepted]) or [verifyDomainIfNeeded] (and [type] is [Verified]), that
    the step failed with [e], and that it left registration [reg] and
    world [w2]. *)
Inductive recorded (req : string * string) (w : World) (e : error)
    : string -> CustomDomainRegistration -> World -> Prop :=
| unregister_fails reg w1 t registered w2 :
    client.Get_CustomDomainRegistration req w = (Ok reg, w1) ->
    metav1.DeletionTimestamp (RegObjectMeta reg) = Some t ->
    unregisterDomain reg w1 = ((registered, Some e), w2) ->
    recorded req w e RegistrationAccepted reg w2
| verify_fails reg w1 w2 reg' verified w3 :
    client.Get_CustomDomainRegistration req w = (Ok reg, w1) ->
    metav1.DeletionTimestamp (RegObjectMeta reg) = None ->
    finalizer.has DomainFinalizer reg = true ->
    registerDomain reg w1 = (None, w2) ->
    verifyDomainIfNeeded reg w2 = ((reg', verified, Some e), w3) ->
    recorded req w e RegistrationVerified reg' w3.

End Reconciler.
End controllers.

(** ** What the store holds for a registration *)

Module stored.
Definition finalizers (w : World) (key : string * string) : option (list string) :=
  (fun r => metav1.Finalizers (RegObjectMeta r)) <$> registrations w !! key.

Definition conditions (w : World) (key : string * string)
    : option (list api.Condition) :=
  (fun r => Conditions (RegStatus r)) <$> registrations w !! key.

Definition status (w : World) (key : string * string)
    : option CustomDomainRegistrationStatus :=
  RegStatus <$> registrations w !! key.
End stored.

(** ** Concrete clusters

    The registrations, domains and worlds the examples below run on. *)

Module Scenario.
Definition gen (key nonce : string) : string :=
  String.append key (String.append ":" nonce).
Definition mk (host : string) : outcome string :=
  Ok (String.append "_skygear." host).
Definition fin : string := "domain.skygear.io/finalizer".

Definition meta (ns name uid : string) (deleted : option metav1.Time)
    (finalizers : list string) : metav1.ObjectMeta :=
  {| metav1.Name := name; metav1.Namespace := ns; metav1.UID := uid;
     metav1.ResourceVersion := 1; metav1.DeletionTimestamp := deleted;
     metav1.Finalizers := finalizers |}.

Definition registrationType : metav1.TypeMeta :=
  {| metav1.APIVersion := "domain.skygear.io/v1beta1";
     metav1.Kind := "CustomDomainRegistration" |}.

Definition registration (ns name uid : string) (deleted : option metav1.Time)
    (conds : list api.Condition) : CustomDomainRegistration :=
  {| RegTypeMeta := registrationType;
     RegObjectMeta := meta ns name uid deleted [fin];
     RegStatus := {| Conditions := conds; RegDNSRecords := [] |} |}.

(** [r1]: namespace [ns], name [acme], UID [u1]. *)
Definition r1 : CustomDomainRegistration := registration "ns" "acme" "u1" None [].
Definition r1_deleting : CustomDomainRegistration :=
  registration "ns" "acme" "u1" (Some 5) [].
Definition r2 : CustomDomainRegistration := registration "ns2" "acme" "u2" None [].
Definition r3 : CustomDomainRegistration := registration "ns3" "acme" "u3" None [].

Definition domain (name : string) (regs : list CustomDomainRegistration)
    (key : option string) : CustomDomain :=
  {| TypeMeta := zeroTypeMeta;
     ObjectMeta := meta "" name "d1" None [];
     Spec := {| Registrations := List.map controllers.regRefOf regs;
                VerificationKey := key |};
     Status := zeroStatus |}.

Definition world (ds : list CustomDomain) (rs : list CustomDomainRegistration)
    (events : list Event) : World :=
  {| domains := list_to_map (List.map (fun d => (client.domain_name d, d)) ds);
     registrations := list_to_map (List.map (fun r => (key_of r, r)) rs);
     script := events;
     calls := [];
     clock := 9 |}.

Definition acme : string * string := ("ns", "acme").

(** [r1] binds to a Domain held by [r2] while a third writer binds [r3]
    between the read and the patch of the pass. *)
Definition contended : World :=
  world [domain "acme" [r2] None] [r1]
    [Serve; Serve; Concurrent (domain "acme" [r2; r3] None)].

(** [r1] is being deleted while it is the only registration bound. *)
Definition deleting : World :=
  world [domain "acme" [r1] None] [r1_deleting] [].

(** The same, with the store failing the read of the Domain. *)
Definition deleting_unreachable : World :=
  world [domain "acme" [r1] None] [r1_deleting]
    [Serve; Fault (ErrStore "etcd unavailable")].

(** [r1] is live and the store fails the read of the Domain made by
    [registerDomain]. *)
Definition binding_unreachable : World :=
  world [domain "acme" [r2] None] [r1]
    [Serve; Fault (ErrStore "etcd unavailable")].

Definition run : string * string -> M (ctrl.Result * option error) :=
  controllers.Reconcile gen mk fin.
End Scenario.

(** ** The watch on Domains *)

Module handler.
(** [ctrl.Request{NamespacedName: types.NamespacedName{Namespace, Name}}] *)
Record Request := { NamespacedName : string * string }.

(** The map function [SetupWithManager] gives to
    [handler.EnqueueRequestsFromMapFunc]: a slice as long as
    [d.Spec.Registrations], filled index by index with the request for the
    namespace and name of each reference. *)
Definition ToRequests (d : CustomDomain) : list Request :=
  List.map
    (fun reg => {| NamespacedName := (corev1.Namespace reg, corev1.Name reg) |})
    (Registrations (Spec d)).
End handler.

(** ** More concrete clusters *)

Module Fixtures.
(** [r1] before its first pass: no finalizer yet. *)
Definition unmarked : CustomDomainRegistration :=
  {| RegTypeMeta := Scenario.registrationType;
     RegObjectMeta := Scenario.meta "ns" "acme" "u1" None [];
     RegStatus := {| Conditions := []; RegDNSRecords := [] |} |}.

(** [r1] after a pass that found it unverified at instant 3. *)
Definition settled : CustomDomainRegistration :=
  Scenario.registration "ns" "acme" "u1" None
    [ {| api.Type_ := "Verified"; api.Status := metav1.ConditionFalse;
         api.LastTransitionTime := 3; api.Message := "" |} ].

Definition nobody : World := Scenario.world [] [] [].

Definition first_pass : World := Scenario.world [] [unmarked] [].

(** No Domain yet; another writer creates it between the read and the
    create of [registerDomain]. *)
Definition create_race : World :=
  Scenario.world [] [Scenario.r1]
    [Serve; Concurrent (Scenario.domain "acme" [Scenario.r2] None)].

Definition shared : World :=
  Scenario.world [Scenario.domain "acme" [Scenario.r2] None] [Scenario.r1] [].

Definition bound : World :=
  Scenario.world [Scenario.domain "acme" [Scenario.r2; Scenario.r1] None]
    [Scenario.r1] [].

Definition keyed : World :=
  Scenario.world [Scenario.domain "acme" [Scenario.r1] (Some "k")]
    [Scenario.r1] [].

Definition converged : World :=
  Scenario.world [Scenario.domain "acme" [Scenario.r1] None] [settled] [].

(** [r1] is being deleted; the store fails the patch that unbinds it. *)
Definition unbinding_fails : World :=
  Scenario.world [Scenario.domain "acme" [Scenario.r1] None]
    [Scenario.r1_deleting] [Serve; Fault (ErrStore "etcd unavailable")].

(** [r1] is being deleted; the store fails the write that drops the
    finalizer, the last call of the pass. *)
Definition removal_fails : World :=
  Scenario.world [Scenario.domain "acme" [Scenario.r1] None]
    [Scenario.r1_deleting]
    [Serve; Serve; Serve; Serve; Fault (ErrStore "etcd unavailable")].
End Fixtures.

(** * Properties *)

(** ** Reference sets *)

Section ReferenceSets.

Lemma matches_regRefOf reg :
  slice.matches (RegObjectMeta reg) (controllers.regRefOf reg) = true.
Proof.
  unfold slice.matches, controllers.regRefOf; simpl.
  now rewrite !String.eqb_refl.
Qed.

Lemma Contains_app refs ref reg :
  slice.ContainsObjectReference (refs ++ [ref]) reg =
    slice.ContainsObjectReference refs reg
    || slice.matches (RegObjectMeta reg) ref.
Proof.
  unfold slice.ContainsObjectReference.
  rewrite existsb_app; simpl. now rewrite orb_false_r.
Qed.

Lemma Contains_appended refs reg :
  slice.ContainsObjectReference (refs ++ [controllers.regRefOf reg]) reg = true.
Proof. rewrite Contains_app, matches_regRefOf. apply orb_true_r. Qed.

Lemma Contains_Remove refs reg :
  slice.ContainsObjectReference (slice.RemoveObjectReference refs reg) reg = false.
Proof.
  unfold slice.ContainsObjectReference, slice.RemoveObjectReference.
  induction refs as [|ref refs IH]; simpl; [reflexivity|].
  destruct (slice.matches (RegObjectMeta reg) ref) eqn:Hm; simpl.
  - exact IH.
  - now rewrite Hm.
Qed.

Lemma Remove_absent refs reg :
  slice.ContainsObjectReference refs reg = false ->
  slice.RemoveObjectReference refs reg = refs.
Proof.
  unfold slice.ContainsObjectReference, slice.RemoveObjectReference.
  induction refs as [|ref refs IH]; simpl; [reflexivity|].
  intros H. apply orb_false_elim in H as [Hm Hr].
  rewrite Hm; simpl. now rewrite IH.
Qed.

End ReferenceSets.

(** ** The client: what a call leaves behind *)

Section ClientFacts.

(** A read changes nothing of its own: the world after it is the world
    that received the call. *)
Lemma Get_CustomDomain_world name w :
  snd (client.Get_CustomDomain name w) = client.after_call (GetDomain name) w.
Proof.
  unfold client.Get_CustomDomain, bind, client.begin, ret.
  destruct (client.next_fault w); [reflexivity|].
  now destruct (domains (client.after_call (GetDomain name) w) !! name).
Qed.

Lemma Get_CustomDomain_Ok name w d w1 :
  client.Get_CustomDomain name w = (Ok d, w1) ->
  w1 = client.after_call (GetDomain name) w /\ domains w1 !! name = Some d.
Proof.
  intros H. pose proof (Get_CustomDomain_world name w) as Hw.
  rewrite H in Hw; simpl in Hw; subst w1. split; [reflexivity|].
  revert H. unfold client.Get_CustomDomain, bind, client.begin, ret.
  destruct (client.next_fault w); [discriminate|].
  destruct (domains (client.after_call (GetDomain name) w) !! name);
    intros H; now inversion H.
Qed.

Lemma Get_CustomDomainRegistration_world key w :
  snd (client.Get_CustomDomainRegistration key w) =
    client.after_call (GetRegistration key) w.
Proof.
  unfold client.Get_CustomDomainRegistration, bind, client.begin, ret.
  destruct (client.next_fault w); [reflexivity|].
  now destruct (registrations (client.after_call (GetRegistration key) w) !! key).
Qed.

(** A write that fails writes nothing. *)
Lemma Patch_Err d patch w e w' :
  client.Patch_ d patch w = (Err e, w') ->
  w' = client.after_call (PatchDomain (client.domain_name d)) w.
Proof.
  unfold client.Patch_, bind, client.begin, ret.
  destruct (client.next_fault w); [now inversion 1|].
  destruct (domains _ !! _); [discriminate|now inversion 1].
Qed.

Lemma Create_Err d w e w' :
  client.Create d w = (Err e, w') ->
  w' = client.after_call (CreateDomain (client.domain_name d)) w.
Proof.
  unfold client.Create, bind, client.begin, ret.
  destruct (client.next_fault w); [now inversion 1|].
  destruct (domains _ !! _); [now inversion 1|discriminate].
Qed.

(** What a merge patch writes. *)
Lemma same_reference_eq a b : client.same_reference a b = true <-> a = b.
Proof.
  unfold client.same_reference. rewrite !andb_true_iff, !String.eqb_eq.
  destruct a, b; simpl. split.
  - intros [[[[-> ->] ->] ->] ->]. reflexivity.
  - intros H; inversion H; subst. now repeat split.
Qed.

Lemma same_references_eq l1 l2 : client.same_references l1 l2 = true <-> l1 = l2.
Proof.
  revert l2. induction l1 as [|a l1 IH]; intros [|b l2]; simpl;
    try (split; [discriminate|discriminate]); [tauto|].
  rewrite andb_true_iff, same_reference_eq, IH. split.
  - intros [-> ->]. reflexivity.
  - intros H; inversion H; now split.
Qed.

Lemma same_key_refl k : client.same_key k k = true.
Proof. destruct k; simpl; [apply String.eqb_refl|reflexivity]. Qed.

Lemma appended_differs refs ref :
  client.same_references (refs ++ [ref]) refs = false.
Proof.
  destruct (client.same_references (refs ++ [ref]) refs) eqn:H; [|reflexivity].
  apply same_references_eq in H. apply (f_equal (@length _)) in H.
  rewrite length_app in H. simpl in H. lia.
Qed.

Lemma removed_differs refs reg :
  slice.ContainsObjectReference refs reg = true ->
  client.same_references (slice.RemoveObjectReference refs reg) refs = false.
Proof.
  intros Hin.
  destruct (client.same_references _ refs) eqn:H; [|reflexivity].
  apply same_references_eq in H.
  pose proof (Contains_Remove refs reg) as Hout. rewrite H in Hout. congruence.
Qed.

(** A patch of the registration list alone, as both callers send it: the
    stored object gets the caller's list and keeps everything else. *)
Lemma patched_registrations d regs stored :
  client.same_references regs (Registrations (Spec d)) = false ->
  Spec (client.patched (DeepCopy d) (domain_with_Registrations d regs) stored) =
    {| Registrations := regs; VerificationKey := VerificationKey (Spec stored) |} /\
  Status (client.patched (DeepCopy d) (domain_with_Registrations d regs) stored) =
    Status stored /\
  ObjectMeta (client.patched (DeepCopy d) (domain_with_Registrations d regs) stored) =
    metav1.with_ResourceVersion (ObjectMeta stored) (S (client.domain_version stored)) /\
  TypeMeta (client.patched (DeepCopy d) (domain_with_Registrations d regs) stored) =
    TypeMeta stored.
Proof.
  intros Hdiff. unfold client.patched, client.empty_patch, DeepCopy. simpl.
  rewrite Hdiff, same_key_refl. simpl. now repeat split.
Qed.

(** A patch that goes through is applied to the object stored at that
    time, stores the result under the same name and hands it back. *)
Lemma Patch_Ok d patch w d' w' :
  client.Patch_ d patch w = (Ok d', w') ->
  (exists stored,
     client.domains_at_next_call w !! client.domain_name d = Some stored /\
     d' = client.patched (client.base patch) d stored) /\
  domains w' = <[client.domain_name d := d']>
                 (client.domains_at_next_call w) /\
  registrations w' = registrations w /\
  calls w' = calls w ++ [PatchDomain (client.domain_name d)] /\
  clock w' = clock w.
Proof.
  unfold client.Patch_, bind, client.begin, ret.
  destruct (client.next_fault w); [discriminate|]. simpl.
  destruct (client.domains_at_next_call w !! client.domain_name d)
    as [stored|] eqn:Hl; [|discriminate].
  intros H; inversion H; subst; clear H. simpl.
  repeat split. now exists stored.
Qed.

Lemma Create_Ok d w d' w' :
  client.Create d w = (Ok d', w') ->
  d' = domain_with_ResourceVersion d 1 /\
  client.domains_at_next_call w !! client.domain_name d = None /\
  domains w' = <[client.domain_name d := d']>
                 (client.domains_at_next_call w) /\
  registrations w' = registrations w /\
  calls w' = calls w ++ [CreateDomain (client.domain_name d)] /\
  clock w' = clock w.
Proof.
  unfold client.Create, bind, client.begin, ret.
  destruct (client.next_fault w); [discriminate|].
  destruct (domains _ !! _) eqn:Hl; [discriminate|].
  unfold client.put_domain; simpl. intros H; inversion H; subst; clear H.
  repeat split. exact Hl.
Qed.

End ClientFacts.

(** ** Binding: [registerDomain] *)

Section Register.

Import controllers.

Lemma undisturbed_next n c w :
  client.undisturbed (S n) (script w) = true ->
  client.next_fault w = None /\
  client.domains_at_next_call w = domains w /\
  client.undisturbed n (script (client.after_call c w)) = true.
Proof.
  unfold client.next_fault, client.domains_at_next_call; simpl.
  destruct (script w) as [|[ | e | d] s]; simpl; try discriminate.
  - intros _. repeat split. now destruct n.
  - intros H. now repeat split.
Qed.

(** The four ways through [registerDomain], one per outcome of the read. *)
Lemma registerDomain_read_error reg w e w1 :
  client.Get_CustomDomain (regName reg) w = (Err e, w1) ->
  apierrors.IsNotFound (Some e) = false ->
  registerDomain reg w = (Some e, w1).
Proof.
  intros Hget Hnf. unfold registerDomain, bind. rewrite Hget, Hnf. reflexivity.
Qed.

Lemma registerDomain_member reg w d w1 :
  client.Get_CustomDomain (regName reg) w = (Ok d, w1) ->
  slice.ContainsObjectReference (Registrations (Spec d)) reg = true ->
  registerDomain reg w = (None, w1).
Proof.
  intros Hget Hin. unfold registerDomain, bind. rewrite Hget, Hin. reflexivity.
Qed.

Lemma registerDomain_absent reg w d w1 :
  client.Get_CustomDomain (regName reg) w = (Ok d, w1) ->
  slice.ContainsObjectReference (Registrations (Spec d)) reg = false ->
  registerDomain reg w =
    let (patched, w2) :=
      client.Patch_
        (domain_with_Registrations d (Registrations (Spec d) ++ [regRefOf reg]))
        (client.MergeFrom (DeepCopy d)) w1 in
    (match patched with Err e => Some e | Ok _ => None end, w2).
Proof.
  intros Hget Hin. unfold registerDomain, bind. rewrite Hget, Hin. simpl.
  destruct (client.Patch_ _ _ w1) as [[d'|e] w2]; reflexivity.
Qed.

(** [registerDomain] never writes a registration and never moves the
    clock. *)
Lemma registerDomain_frame reg w err w' :
  registerDomain reg w = (err, w') ->
  registrations w' = registrations w /\ clock w' = clock w.
Proof.
  unfold registerDomain, bind.
  destruct (client.Get_CustomDomain (regName reg) w) as [[d|e] w1] eqn:Hget.
  all: pose proof (Get_CustomDomain_world (regName reg) w) as Hw;
    rewrite Hget in Hw; simpl in Hw; subst w1.
  - destruct (negb _).
    + destruct (client.Patch_ _ _ _) as [[d'|e] w2] eqn:Hp;
        intros H; inversion H; subst; clear H.
      * apply Patch_Ok in Hp. now destruct Hp as (_ & _ & Hr & _ & Hc).
      * apply Patch_Err in Hp. now subst.
    + intros H; now inversion H.
  - destruct (negb _).
    + intros H; now inversion H.
    + destruct (client.Create _ _) as [[d'|e'] w2] eqn:Hc;
        intros H; inversion H; subst; clear H.
      * apply Create_Ok in Hc. now destruct Hc as (_ & _ & _ & Hr & _ & Hk).
      * apply Create_Err in Hc. now subst.
Qed.

(** C4 (as the code has it): when no Domain is stored under the
    registration's name and the read and the create are served,
    [registerDomain] creates a Domain named after the registration (the
    registration's name is the hostname) whose [spec.registrations] is the
    single reference to the registration; no other Domain is touched. *)
Theorem register_creates_domain (reg : CustomDomainRegistration) (w : World) :
  client.undisturbed 2 (script w) = true ->
  domains w !! regName reg = None ->
  exists w' d,
    registerDomain reg w = (None, w') /\
    domains w' !! regName reg = Some d /\
    metav1.Name (ObjectMeta d) = regName reg /\
    Registrations (Spec d) = [regRefOf reg] /\
    (forall name, name <> regName reg -> domains w' !! name = domains w !! name) /\
    calls w' = calls w ++ [GetDomain (regName reg); CreateDomain (regName reg)].
Proof.
  intros Hq Hnone.
  destruct (undisturbed_next 1 (GetDomain (regName reg)) w Hq) as (Hf & Hd & Hq1).
  set (w1 := client.after_call (GetDomain (regName reg)) w) in *.
  destruct (undisturbed_next 0 (CreateDomain (regName reg)) w1 Hq1) as (Hf1 & Hd1 & _).
  assert (Hdw1 : domains w1 = domains w) by exact Hd.
  unfold registerDomain, bind.
  unfold client.Get_CustomDomain at 1. unfold bind, client.begin, ret.
  rewrite Hf. fold w1. rewrite Hdw1, Hnone. simpl.
  unfold client.Create, bind, client.begin, ret. simpl.
  rewrite Hf1. unfold client.domain_name at 1 2; simpl.
  rewrite Hd1, Hdw1, Hnone. simpl.
  eexists _, _. split; [reflexivity|]. simpl.
  unfold client.domain_name; simpl.
  rewrite lookup_insert_eq. repeat split.
  - intros name Hne. now rewrite lookup_insert_ne by congruence.
  - now rewrite <- app_assoc.
Qed.

Lemma register_creates_domain_witness :
  exists w' d,
    registerDomain Scenario.r1 (Scenario.world [] [Scenario.r1] []) = (None, w') /\
    domains w' !! "acme" = Some d /\
    metav1.Name (ObjectMeta d) = "acme" /\
    Registrations (Spec d) = [regRefOf Scenario.r1].
Proof.
  destruct (register_creates_domain Scenario.r1
              (Scenario.world [] [Scenario.r1] []))
    as (w' & d & H1 & H2 & H3 & H4 & _).
  - reflexivity.
  - reflexivity.
  - exists w', d. repeat split; assumption.
Defined.

(** C4 (as stated): no Domain named [acme.example] exists after
    [register(r1)]; the Domain is stored under the registration's name,
    [acme]. *)
Lemma register_domain_name_counterexample :
  let w' := snd (registerDomain Scenario.r1 (Scenario.world [] [Scenario.r1] [])) in
  fst (registerDomain Scenario.r1 (Scenario.world [] [Scenario.r1] [])) = None /\
  domains w' !! "acme.example" = None /\
  (Registrations <$> (Spec <$> domains w' !! "acme")) = Some [regRefOf Scenario.r1].
Proof. vm_compute. repeat split. Qed.

(** C7: when the Domain that [registerDomain] reads already holds a
    reference to the registration, the call is a no-op: it returns no
    error in the very world the read left, having made no call but the
    read, so the stored Domain is still the one that was read, its
    registration list unchanged in length, content and order. *)
Theorem register_idempotent (reg : CustomDomainRegistration) (w : World)
    (d : CustomDomain) (w1 : World) :
  client.Get_CustomDomain (regName reg) w = (Ok d, w1) ->
  slice.ContainsObjectReference (Registrations (Spec d)) reg = true ->
  registerDomain reg w = (None, w1) /\
  domains w1 !! regName reg = Some d /\
  domains w1 = client.domains_at_next_call w /\
  registrations w1 = registrations w /\
  calls w1 = calls w ++ [GetDomain (regName reg)].
Proof.
  intros Hget Hin. split; [now apply registerDomain_member with d|].
  apply Get_CustomDomain_Ok in Hget as [-> Hl]. now repeat split.
Qed.

Lemma register_idempotent_witness :
  let w := Scenario.world [Scenario.domain "acme" [Scenario.r2; Scenario.r1] None]
             [Scenario.r1] [] in
  exists w1,
    registerDomain Scenario.r1 w = (None, w1) /\
    (Registrations <$> (Spec <$> domains w1 !! "acme")) =
      Some [regRefOf Scenario.r2; regRefOf Scenario.r1].
Proof.
  intros w.
  destruct (register_idempotent Scenario.r1 w
              (d := Scenario.domain "acme" [Scenario.r2; Scenario.r1] None)
              (w1 := client.after_call (GetDomain "acme") w))
    as (H1 & H2 & _).
  - reflexivity.
  - reflexivity.
  - eexists. split; [exact H1|]. vm_compute. reflexivity.
Defined.

(** Registering twice on a quiet cluster: the second call finds the
    reference and leaves the list of length one. *)
Example register_twice :
  let w := Scenario.world [] [Scenario.r1] [] in
  let w1 := snd (registerDomain Scenario.r1 w) in
  let w2 := snd (registerDomain Scenario.r1 w1) in
  fst (registerDomain Scenario.r1 w1) = None /\
  domains w2 = domains w1 /\
  (Registrations <$> (Spec <$> domains w2 !! "acme")) =
    Some [regRefOf Scenario.r1].
Proof. vm_compute. repeat split. Qed.

End Register.

(** ** Unbinding: [unregisterDomain] *)

Section Unregister.

Import controllers.

(** When the load of the Domain answers not-found, or answers with a
    Domain that holds no reference matching the registration,
    [unregisterDomain] reports [(false, nil)] in the very world the read
    left: it made no call but the read. *)
Lemma unregister_absent (reg : CustomDomainRegistration) (w : World)
    (got : outcome CustomDomain) (w1 : World) :
  client.Get_CustomDomain (regName reg) w = (got, w1) ->
  match got with
  | Err e => apierrors.IsNotFound (Some e) = true
  | Ok d => slice.ContainsObjectReference (Registrations (Spec d)) reg = false
  end ->
  unregisterDomain reg w = ((false, None), w1) /\
  domains w1 = client.domains_at_next_call w /\
  registrations w1 = registrations w /\
  calls w1 = calls w ++ [GetDomain (regName reg)].
Proof.
  intros Hget Hcase. split.
  - unfold unregisterDomain, bind. rewrite Hget.
    destruct got as [d|e].
    + rewrite Hcase. unfold ret. now rewrite Hcase.
    + now rewrite Hcase.
  - pose proof (Get_CustomDomain_world (regName reg) w) as Hw.
    rewrite Hget in Hw; simpl in Hw; subst w1. now repeat split.
Qed.

(** C8 (as stated): the Domain is loaded and holds the reference, the
    patch that removes it is answered with not-found (the Domain went away
    in between), and [unregisterDomain] reports that not-found as its
    error. *)
Example unregister_patch_not_found :
  let w := Scenario.world [Scenario.domain "acme" [Scenario.r1] None]
             [Scenario.r1_deleting] [Serve; Fault ErrNotFound] in
  fst (unregisterDomain Scenario.r1_deleting w) = (false, Some ErrNotFound) /\
  apierrors.IsNotFound (snd (fst (unregisterDomain Scenario.r1_deleting w))) = true.
Proof. split; reflexivity. Qed.

(** C8 (as the code has it): when the load of the Domain answers
    not-found, or answers with a Domain that holds no reference matching
    the registration, [unregisterDomain] reports [stillRegistered = false]
    with no error, having made no call but the read, so the Domain's
    registration list is untouched; not-found on the load is never turned
    into an error.  An error of the patch, which is sent only when the
    reference is present, is returned whatever it is, not-found
    included. *)
Theorem unregister_not_found (reg : CustomDomainRegistration) (w : World) :
  (forall got w1,
     client.Get_CustomDomain (regName reg) w = (got, w1) ->
     match got with
     | Err e => apierrors.IsNotFound (Some e) = true
     | Ok d => slice.ContainsObjectReference (Registrations (Spec d)) reg = false
     end ->
     unregisterDomain reg w = ((false, None), w1) /\
     domains w1 = client.domains_at_next_call w /\
     registrations w1 = registrations w /\
     calls w1 = calls w ++ [GetDomain (regName reg)]) /\
  (forall d w1 e w2,
     client.Get_CustomDomain (regName reg) w = (Ok d, w1) ->
     slice.ContainsObjectReference (Registrations (Spec d)) reg = true ->
     client.Patch_
       (domain_with_Registrations d
          (slice.RemoveObjectReference (Registrations (Spec d)) reg))
       (client.MergeFrom (DeepCopy d)) w1 = (Err e, w2) ->
     unregisterDomain reg w = ((false, Some e), w2) /\
     domains w2 = client.domains_at_next_call w1).
Proof.
  split.
  - intros got w1 Hget Hcase. eapply unregister_absent; eassumption.
  - intros d w1 e w2 Hget Hin Hpatch. split.
    + unfold unregisterDomain, bind. now rewrite Hget, Hin, Hpatch.
    + apply Patch_Err in Hpatch. now subst w2.
Qed.

Lemma unregister_not_found_witness :
  let gone := Scenario.world [] [Scenario.r1_deleting] [] in
  let other := Scenario.world [Scenario.domain "acme" [Scenario.r2] None]
                 [Scenario.r1_deleting] [] in
  let vanished := Scenario.world [Scenario.domain "acme" [Scenario.r1] None]
                    [Scenario.r1_deleting] [Serve; Fault ErrNotFound] in
  (fst (unregisterDomain Scenario.r1_deleting gone) = (false, None) /\
   domains (snd (unregisterDomain Scenario.r1_deleting gone)) = domains gone) /\
  (fst (unregisterDomain Scenario.r1_deleting other) = (false, None) /\
   domains (snd (unregisterDomain Scenario.r1_deleting other)) = domains other) /\
  fst (unregisterDomain Scenario.r1_deleting vanished) = (false, Some ErrNotFound).
Proof.
  intros gone other vanished. split; [split|split; [split|]].
  - destruct (proj1 (unregister_not_found Scenario.r1_deleting gone)
                (Err ErrNotFound) (client.after_call (GetDomain "acme") gone))
      as (H1 & _); [reflexivity|reflexivity|]. now rewrite H1.
  - destruct (proj1 (unregister_not_found Scenario.r1_deleting gone)
                (Err ErrNotFound) (client.after_call (GetDomain "acme") gone))
      as (H1 & H2 & _); [reflexivity|reflexivity|]. rewrite H1. exact H2.
  - destruct (proj1 (unregister_not_found Scenario.r1_deleting other)
                (Ok (Scenario.domain "acme" [Scenario.r2] None))
                (client.after_call (GetDomain "acme") other))
      as (H1 & _); [reflexivity|reflexivity|]. now rewrite H1.
  - destruct (proj1 (unregister_not_found Scenario.r1_deleting other)
                (Ok (Scenario.domain "acme" [Scenario.r2] None))
                (client.after_call (GetDomain "acme") other))
      as (H1 & H2 & _); [reflexivity|reflexivity|]. rewrite H1. exact H2.
  - destruct (proj2 (unregister_not_found Scenario.r1_deleting vanished)
                (Scenario.domain "acme" [Scenario.r1] None)
                (client.after_call (GetDomain "acme") vanished)
                ErrNotFound
                (client.after_call (PatchDomain "acme")
                   (client.after_call (GetDomain "acme") vanished)))
      as (H1 & _); [reflexivity|reflexivity|vm_compute; reflexivity|].
    now rewrite H1.
Defined.

(** [unregisterDomain] never writes a registration and never moves the
    clock. *)
Lemma unregisterDomain_frame reg w r w' :
  unregisterDomain reg w = (r, w') ->
  registrations w' = registrations w /\ clock w' = clock w.
Proof.
  unfold unregisterDomain, bind.
  destruct (client.Get_CustomDomain (regName reg) w) as [[d|e] w1] eqn:Hget.
  all: pose proof (Get_CustomDomain_world (regName reg) w) as Hw;
    rewrite Hget in Hw; simpl in Hw; subst w1.
  - destruct (slice.ContainsObjectReference _ reg).
    + destruct (client.Patch_ _ _ _) as [[d'|e] w2] eqn:Hp;
        intros H; inversion H; subst; clear H.
      * apply Patch_Ok in Hp. now destruct Hp as (_ & _ & Hr & _ & Hc).
      * apply Patch_Err in Hp. now subst.
    + intros H; now inversion H.
  - destruct (apierrors.IsNotFound _); intros H; now inversion H.
Qed.

(** An error-free [unregisterDomain] always reports [false]: the
    membership check at the end runs on the list the references were just
    removed from. *)
Lemma unregisterDomain_success reg w registered w' :
  unregisterDomain reg w = ((registered, None), w') -> registered = false.
Proof.
  unfold unregisterDomain, bind.
  destruct (client.Get_CustomDomain (regName reg) w) as [[d|e] w1] eqn:Hget.
  - destruct (slice.ContainsObjectReference (Registrations (Spec d)) reg) eqn:Hin.
    + destruct (client.Patch_ _ _ _) as [[d'|e] w2] eqn:Hp; [|discriminate].
      apply Patch_Ok in Hp as ((stored & _ & ->) & _).
      intros H; inversion H; subst; clear H.
      unfold DeepCopy. rewrite (removed_differs _ _ Hin). apply Contains_Remove.
    + unfold ret. intros H; inversion H; subst. exact Hin.
  - destruct (apierrors.IsNotFound _); intros H; now inversion H.
Qed.

End Unregister.

(** ** Verification: [verifyDomainIfNeeded] *)

Section Verify.

Import controllers.

Variable VerificationTokenGenerator : string -> string -> string.
Variable MakeDNSRecordName : string -> outcome string.

(** The loop reads the first condition of type [Verified]. *)
Lemma lastVerified_find conds :
  fst (lastVerified conds) =
    match List.find isVerifiedType conds with
    | Some c => metav1.ConditionStatus_eqb (api.Status c) metav1.ConditionTrue
    | None => false
    end.
Proof.
  induction conds as [|c conds IH]; simpl; [reflexivity|].
  destruct (isVerifiedType c); [reflexivity|exact IH].
Qed.

Lemma lastVerified_none conds :
  (forall c, In c conds -> api.Type_ c = RegistrationVerified ->
             api.Status c <> metav1.ConditionTrue) ->
  fst (lastVerified conds) = false.
Proof.
  intros H. rewrite lastVerified_find.
  destruct (List.find isVerifiedType conds) as [c|] eqn:Hf; [|reflexivity].
  apply List.find_some in Hf as [Hin Ht].
  unfold isVerifiedType in Ht. apply String.eqb_eq in Ht.
  specialize (H c Hin Ht). now destruct (api.Status c).
Qed.

Lemma verify_no_key reg w d w1 :
  client.Get_CustomDomain (regName reg) w = (Ok d, w1) ->
  VerificationKey (Spec d) = None ->
  verifyDomainIfNeeded VerificationTokenGenerator MakeDNSRecordName reg w = ((reg, false, None), w1).
Proof.
  intros Hget Hkey. unfold verifyDomainIfNeeded, bind.
  now rewrite Hget, Hkey.
Qed.

Lemma verify_with_key reg w d w1 key name :
  client.Get_CustomDomain (regName reg) w = (Ok d, w1) ->
  VerificationKey (Spec d) = Some key ->
  MakeDNSRecordName (metav1.Name (ObjectMeta d)) = Ok name ->
  verifyDomainIfNeeded VerificationTokenGenerator MakeDNSRecordName reg w =
    ((reg_with_DNSRecords reg
        (DNSRecords (LoadBalancer (Status d))
         ++ [ {| Name := name; Type_ := "TXT";
                 Value := VerificationTokenGenerator key
                            (metav1.UID (RegObjectMeta reg)) |} ]),
      fst (lastVerified (Conditions (RegStatus reg))), None), w1).
Proof.
  intros Hget Hkey Hname. unfold verifyDomainIfNeeded, bind.
  rewrite Hget, Hkey, Hname. simpl.
  destruct (lastVerified (Conditions (RegStatus reg))) as [[|] t]; reflexivity.
Qed.

(** [verifyDomainIfNeeded] reads only: no registration and no Domain is
    written, whatever it returns. *)
Lemma verify_frame reg w r w' :
  verifyDomainIfNeeded VerificationTokenGenerator MakeDNSRecordName reg w = (r, w') ->
  w' = client.after_call (GetDomain (regName reg)) w.
Proof.
  unfold verifyDomainIfNeeded, bind.
  destruct (client.Get_CustomDomain (regName reg) w) as [[d|e] w1] eqn:Hget.
  all: pose proof (Get_CustomDomain_world (regName reg) w) as Hw;
    rewrite Hget in Hw; simpl in Hw; subst w1.
  - destruct (VerificationKey (Spec d)); [|now inversion 1].
    destruct (MakeDNSRecordName _); [|now inversion 1].
    simpl. destruct (lastVerified _) as [[|] t]; now inversion 1.
  - now inversion 1.
Qed.

(** C5: with the Domain loaded, its verification key present and the
    record name derived, verification is sticky: if the registration's
    persisted [Verified] condition has status [True] the call reports
    [verified = true]; if the registration holds no [Verified] condition
    with status [True] it reports [verified = false]; in both cases with
    no error. *)
Theorem verify_sticky (reg : CustomDomainRegistration) (w : World)
    (d : CustomDomain) (w1 : World) (key name : string) :
  client.Get_CustomDomain (regName reg) w = (Ok d, w1) ->
  VerificationKey (Spec d) = Some key ->
  MakeDNSRecordName (metav1.Name (ObjectMeta d)) = Ok name ->
  exists reg' verified,
    verifyDomainIfNeeded VerificationTokenGenerator MakeDNSRecordName reg w
      = ((reg', verified, None), w1) /\
    (forall c, List.find isVerifiedType (Conditions (RegStatus reg)) = Some c ->
               api.Status c = metav1.ConditionTrue -> verified = true) /\
    ((forall c, In c (Conditions (RegStatus reg)) ->
                api.Type_ c = RegistrationVerified ->
                api.Status c <> metav1.ConditionTrue) -> verified = false).
Proof.
  intros Hget Hkey Hname.
  eexists _, _. split; [eapply verify_with_key; eassumption|]. split.
  - intros c Hf Hs. rewrite lastVerified_find, Hf, Hs. reflexivity.
  - apply lastVerified_none.
Qed.

(** C6: when the loaded Domain has no verification key,
    [verifyDomainIfNeeded] reports [verified = false] with no error and
    hands the registration back as it got it, [status.dnsRecords]
    included; nothing is written to the store either. *)
Theorem verify_without_key (reg : CustomDomainRegistration) (w : World)
    (d : CustomDomain) (w1 : World) :
  client.Get_CustomDomain (regName reg) w = (Ok d, w1) ->
  VerificationKey (Spec d) = None ->
  exists reg',
    verifyDomainIfNeeded VerificationTokenGenerator MakeDNSRecordName reg w
      = ((reg', false, None), w1) /\
    RegDNSRecords (RegStatus reg') = RegDNSRecords (RegStatus reg) /\
    reg' = reg /\
    registrations w1 = registrations w /\
    domains w1 = client.domains_at_next_call w.
Proof.
  intros Hget Hkey. exists reg. split; [eapply verify_no_key; eassumption|].
  apply Get_CustomDomain_Ok in Hget as [-> _]. now repeat split.
Qed.

End Verify.

Lemma verify_sticky_witness :
  let verified := controllers.condition_of RegistrationVerified metav1.ConditionTrue "" in
  let w := Scenario.world [Scenario.domain "acme" [Scenario.r1] (Some "k")] [] [] in
  (exists reg',
     fst (controllers.verifyDomainIfNeeded Scenario.gen Scenario.mk
            (Scenario.registration "ns" "acme" "u1" None [verified]) w)
     = (reg', true, None)) /\
  (exists reg',
     fst (controllers.verifyDomainIfNeeded Scenario.gen Scenario.mk Scenario.r1 w)
     = (reg', false, None)).
Proof.
  intros verified w. split.
  - destruct (@verify_sticky Scenario.gen Scenario.mk
                (Scenario.registration "ns" "acme" "u1" None [verified])
                w (Scenario.domain "acme" [Scenario.r1] (Some "k"))
                (client.after_call (GetDomain "acme") w)
                "k" "_skygear.acme")
      as (reg' & v & Hrun & Htrue & _).
    + reflexivity.
    + reflexivity.
    + reflexivity.
    + exists reg'. rewrite Hrun. simpl.
      now rewrite (Htrue verified eq_refl eq_refl).
  - destruct (@verify_sticky Scenario.gen Scenario.mk Scenario.r1
                w (Scenario.domain "acme" [Scenario.r1] (Some "k"))
                (client.after_call (GetDomain "acme") w)
                "k" "_skygear.acme")
      as (reg' & v & Hrun & _ & Hfalse).
    + reflexivity.
    + reflexivity.
    + reflexivity.
    + exists reg'. rewrite Hrun. simpl.
      rewrite Hfalse; [reflexivity|]. intros c [].
Defined.

Lemma verify_without_key_witness :
  let w := Scenario.world [Scenario.domain "acme" [Scenario.r1] None] [] [] in
  exists reg',
    fst (controllers.verifyDomainIfNeeded Scenario.gen Scenario.mk Scenario.r1 w)
    = (reg', false, None) /\
    RegDNSRecords (RegStatus reg') = RegDNSRecords (RegStatus Scenario.r1).
Proof.
  intros w.
  destruct (@verify_without_key Scenario.gen Scenario.mk Scenario.r1
              w (Scenario.domain "acme" [Scenario.r1] None)
              (client.after_call (GetDomain "acme") w))
    as (reg' & Hrun & Hdns & _).
  - reflexivity.
  - reflexivity.
  - exists reg'. rewrite Hrun. split; [reflexivity|exact Hdns].
Defined.

(** ** Condition sets: [condition.MergeFrom] *)

Section Conditions.

Lemma ConditionStatus_eqb_eq a b :
  metav1.ConditionStatus_eqb a b = true <-> a = b.
Proof. destruct a, b; simpl; split; congruence. Qed.

Lemma continues_spec c p :
  condition.continues c p = true <->
  api.Type_ p = api.Type_ c /\ api.Status p = api.Status c.
Proof.
  unfold condition.continues.
  rewrite andb_true_iff, String.eqb_eq, ConditionStatus_eqb_eq. tauto.
Qed.

(** In a set keyed by type, a type names one condition. *)
Lemma keyed_by_type (prev : list api.Condition) p q :
  List.NoDup (List.map api.Type_ prev) ->
  In p prev -> In q prev -> api.Type_ p = api.Type_ q -> p = q.
Proof.
  induction prev as [|x prev IH]; simpl; [tauto|].
  intros Hnd Hp Hq Ht. inversion Hnd as [|? ? Hnotin Hnd']; subst.
  destruct Hp as [->|Hp], Hq as [->|Hq]; auto.
  - exfalso. apply Hnotin. rewrite Ht. now apply in_map.
  - exfalso. apply Hnotin. rewrite <- Ht. now apply in_map.
Qed.

(** C9: for every condition [c] of the new set, the merged set holds at
    the same place a condition of the same type, status and message.  If
    the previous set (keyed by type) held a condition of that type with
    the same status, the merged condition keeps that condition's
    [lastTransitionTime]; if it held none, the merged condition gets the
    reconciling instant.  The merged set has the new conditions in their
    order and nothing else. *)
Theorem merge_lastTransitionTime (now : metav1.Time)
    (new prev : list api.Condition) (i : nat) (c : api.Condition) :
  List.NoDup (List.map api.Type_ prev) ->
  nth_error new i = Some c ->
  exists m,
    nth_error (condition.merge now new prev) i = Some m /\
    api.Type_ m = api.Type_ c /\
    api.Status m = api.Status c /\
    api.Message m = api.Message c /\
    (forall p, In p prev -> api.Type_ p = api.Type_ c ->
               api.Status p = api.Status c ->
               api.LastTransitionTime m = api.LastTransitionTime p) /\
    ((forall p, In p prev -> api.Type_ p = api.Type_ c ->
                api.Status p <> api.Status c) ->
     api.LastTransitionTime m = now) /\
    length (condition.merge now new prev) = length new.
Proof.
  intros Hkeyed Hc. exists (condition.merge_one now prev c).
  split; [now apply map_nth_error|].
  unfold condition.merge_one.
  destruct (List.find (condition.continues c) prev) as [q|] eqn:Hfind.
  - apply List.find_some in Hfind as [Hq Hcont].
    apply continues_spec in Hcont as [Hqt Hqs].
    simpl. repeat split.
    + intros p Hp Hpt _.
      assert (p = q) as -> by (apply (keyed_by_type prev); congruence).
      reflexivity.
    + intros Hnone. exfalso. now apply (Hnone q).
    + apply length_map.
  - simpl. repeat split.
    + intros p Hp Hpt Hps. exfalso.
      pose proof (List.find_none _ _ Hfind p Hp) as Hno.
      assert (condition.continues c p = true) by now apply continues_spec.
      congruence.
    + apply length_map.
Qed.

(** The two cases of the merge on one [Verified] condition persisted at
    instant 3, merged at instant 9. *)
Lemma merge_lastTransitionTime_witness :
  let prev := [ {| api.Type_ := "Verified"; api.Status := metav1.ConditionFalse;
                   api.LastTransitionTime := 3; api.Message := "" |} ] in
  let same := controllers.condition_of "Verified" metav1.ConditionFalse "" in
  let changed := controllers.condition_of "Verified" metav1.ConditionTrue "" in
  (exists m, nth_error (condition.merge 9 [same] prev) 0 = Some m /\
             api.LastTransitionTime m = 3) /\
  (exists m, nth_error (condition.merge 9 [changed] prev) 0 = Some m /\
             api.LastTransitionTime m = 9).
Proof.
  intros prev same changed.
  assert (Hkeyed : List.NoDup (List.map api.Type_ prev)).
  { repeat constructor. simpl. tauto. }
  split.
  - destruct (@merge_lastTransitionTime 9 [same] prev 0 same Hkeyed eq_refl)
      as (m & Hm & _ & _ & _ & Hkeep & _).
    exists m. split; [exact Hm|].
    apply (Hkeep (List.hd same prev)); [left|..]; reflexivity.
  - destruct (@merge_lastTransitionTime 9 [changed] prev 0 changed Hkeyed eq_refl)
      as (m & Hm & _ & _ & _ & _ & Hnew & _).
    exists m. split; [exact Hm|].
    apply Hnew. intros p [<-|[]] _. discriminate.
Defined.

(** In [Reconcile] the merge runs at the clock of the pass. *)
Lemma MergeFrom_at_clock conditions previous w :
  condition.MergeFrom conditions previous w =
    (condition.merge (clock w) conditions previous, w).
Proof. reflexivity. Qed.

End Conditions.

(** ** The reconcile pass *)

Section Pass.

Import controllers.

Variable VerificationTokenGenerator : string -> string -> string.
Variable MakeDNSRecordName : string -> outcome string.
Variable DomainFinalizer : string.

Lemma Get_CustomDomainRegistration_Ok key w reg w1 :
  client.Get_CustomDomainRegistration key w = (Ok reg, w1) ->
  w1 = client.after_call (GetRegistration key) w /\
  registrations w !! key = Some reg.
Proof.
  intros H. pose proof (Get_CustomDomainRegistration_world key w) as Hw.
  rewrite H in Hw; simpl in Hw; subst w1. split; [reflexivity|].
  revert H. unfold client.Get_CustomDomainRegistration, bind, client.begin, ret.
  destruct (client.next_fault w); [discriminate|]. simpl.
  destruct (registrations w !! key); intros H; now inversion H.
Qed.

Lemma Status_Update_Err r w e w' :
  client.Status_Update r w = (Err e, w') ->
  w' = client.after_call (UpdateRegistrationStatus (key_of r)) w.
Proof.
  unfold client.Status_Update, bind, client.begin, ret.
  destruct (client.next_fault w); [now inversion 1|].
  destruct (registrations _ !! _); [|now inversion 1].
  destruct (Nat.eqb _ _); [discriminate|now inversion 1].
Qed.

Lemma Status_Update_Ok r w r' w' :
  client.Status_Update r w = (Ok r', w') ->
  exists old,
    registrations w !! key_of r = Some old /\
    RegStatus r' = RegStatus r /\
    metav1.Finalizers (RegObjectMeta r') = metav1.Finalizers (RegObjectMeta old) /\
    key_of r' = key_of old /\
    registrations w' = <[key_of r := r']> (registrations w) /\
    calls w' = calls w ++ [UpdateRegistrationStatus (key_of r)] /\
    clock w' = clock w.
Proof.
  unfold client.Status_Update, bind, client.begin, ret.
  destruct (client.next_fault w); [discriminate|]. simpl.
  destruct (registrations w !! key_of r) as [old|] eqn:Hold; [|discriminate].
  destruct (Nat.eqb _ _); [|discriminate].
  unfold client.put_registration; simpl.
  intros H; inversion H; subst; clear H. exists old. now repeat split.
Qed.

Lemma Update_Err r w e w' :
  client.Update r w = (Err e, w') ->
  w' = client.after_call (UpdateRegistration (key_of r)) w.
Proof.
  unfold client.Update, bind, client.begin, ret.
  destruct (client.next_fault w); [now inversion 1|].
  destruct (registrations _ !! _); [|now inversion 1].
  destruct (Nat.eqb _ _); [discriminate|now inversion 1].
Qed.

Lemma Update_Ok r w r' w' :
  client.Update r w = (Ok r', w') ->
  RegStatus r' = RegStatus r /\
  metav1.Finalizers (RegObjectMeta r') = metav1.Finalizers (RegObjectMeta r) /\
  key_of r' = key_of r /\
  registrations w' = <[key_of r := r']> (registrations w) /\
  calls w' = calls w ++ [UpdateRegistration (key_of r)].
Proof.
  unfold client.Update, bind, client.begin, ret.
  destruct (client.next_fault w); [discriminate|]. simpl.
  destruct (registrations w !! key_of r) as [old|]; [|discriminate].
  destruct (Nat.eqb _ _); [|discriminate].
  unfold client.put_registration; simpl.
  intros H; inversion H; subst; clear H. now repeat split.
Qed.

(** [Reconcile] after a successful read of the registration: the branch,
    then the tail. *)
Lemma Reconcile_branch req w reg w1 :
  client.Get_CustomDomainRegistration req w = (Ok reg, w1) ->
  Reconcile VerificationTokenGenerator MakeDNSRecordName DomainFinalizer req w =
    let (b, w2) := runBranch VerificationTokenGenerator MakeDNSRecordName
                     DomainFinalizer reg w1 in
    match b with
    | Return_ res err => ((res, err), w2)
    | Proceed reg conditions doFinalize =>
        persist DomainFinalizer reg conditions doFinalize w2
    end.
Proof.
  intros Hget. unfold Reconcile, bind at 1. rewrite Hget.
  unfold bind. destruct (runBranch _ _ _ reg w1) as [[res err|r c f] w2]; reflexivity.
Qed.

Lemma Reconcile_read_error req w e w1 :
  client.Get_CustomDomainRegistration req w = (Err e, w1) ->
  Reconcile VerificationTokenGenerator MakeDNSRecordName DomainFinalizer req w =
    (({| ctrl.Requeue := false |}, client.IgnoreNotFound (Some e)), w1).
Proof. intros Hget. unfold Reconcile, bind. now rewrite Hget. Qed.

(** The tail of the pass is the status update of the submitted
    registration and, when asked for and the update went through, the
    removal of the finalizer. *)
Lemma persist_eq reg conditions doFinalize w :
  persist DomainFinalizer reg conditions doFinalize w =
    match client.Status_Update (submitted (clock w) reg conditions) w with
    | (Err e, w1) => (({| ctrl.Requeue := false |}, Some e), w1)
    | (Ok reg1, w1) =>
        if doFinalize then
          let (r, w2) := finalizer.Remove reg1 DomainFinalizer w1 in
          (({| ctrl.Requeue := false |}, snd r), w2)
        else (({| ctrl.Requeue := false |}, None), w1)
    end.
Proof.
  unfold persist, bind, condition.MergeFrom, submitted.
  destruct (client.Status_Update _ w) as [[reg1|e] w1]; [|reflexivity].
  destruct doFinalize; [|reflexivity].
  destruct (finalizer.Remove reg1 DomainFinalizer w1) as [[r err] w2]; reflexivity.
Qed.

Lemma deletionBranch_eq reg w registered uerr w' :
  unregisterDomain reg w = ((registered, uerr), w') ->
  deletionBranch reg w =
    (Proceed reg
       [match uerr with
        | Some e => condition_of RegistrationAccepted metav1.ConditionUnknown (Error e)
        | None => condition_of RegistrationAccepted (condition.ToStatus registered) ""
        end]
       (match uerr with Some _ => false | None => negb registered end),
     w').
Proof.
  intros Hun. unfold deletionBranch, bind. rewrite Hun.
  destruct uerr; reflexivity.
Qed.

Lemma Ensure_present reg w :
  finalizer.has DomainFinalizer reg = true ->
  finalizer.Ensure reg DomainFinalizer w = ((reg, false, None), w).
Proof. intros H. unfold finalizer.Ensure. now rewrite H. Qed.

Lemma normalBranch_register_error reg w e w' :
  finalizer.has DomainFinalizer reg = true ->
  registerDomain reg w = (Some e, w') ->
  normalBranch VerificationTokenGenerator MakeDNSRecordName DomainFinalizer reg w =
    (Return_ {| ctrl.Requeue := false |} (Some e), w').
Proof.
  intros Hhas Hreg. unfold normalBranch, bind.
  rewrite (Ensure_present _ _ Hhas), Hreg. reflexivity.
Qed.

Lemma normalBranch_verify reg w w1 reg' verified verr w2 :
  finalizer.has DomainFinalizer reg = true ->
  registerDomain reg w = (None, w1) ->
  verifyDomainIfNeeded VerificationTokenGenerator MakeDNSRecordName reg w1 =
    ((reg', verified, verr), w2) ->
  normalBranch VerificationTokenGenerator MakeDNSRecordName DomainFinalizer reg w =
    (Proceed reg'
       [match verr with
        | Some e => condition_of RegistrationVerified metav1.ConditionUnknown (Error e)
        | None => condition_of RegistrationVerified (condition.ToStatus verified) ""
        end]
       false,
     w2).
Proof.
  intros Hhas Hreg Hver. unfold normalBranch, bind.
  rewrite (Ensure_present _ _ Hhas), Hreg, Hver. destruct verr; reflexivity.
Qed.

(** A branch that falls through to the status update has written no
    registration. *)
Lemma runBranch_Proceed_frame reg w reg' conditions doFinalize w' :
  runBranch VerificationTokenGenerator MakeDNSRecordName DomainFinalizer reg w =
    (Proceed reg' conditions doFinalize, w') ->
  registrations w' = registrations w /\ clock w' = clock w.
Proof.
  unfold runBranch.
  destruct (metav1.DeletionTimestamp (RegObjectMeta reg)).
  - unfold deletionBranch, bind.
    destruct (unregisterDomain reg w) as [[registered uerr] w2] eqn:Hun.
    apply unregisterDomain_frame in Hun.
    destruct uerr; intros H; inversion H; subst; exact Hun.
  - unfold normalBranch, bind, finalizer.Ensure.
    destruct (finalizer.has DomainFinalizer reg).
    + unfold ret at 1.
      destruct (registerDomain reg w) as [[e|] w1] eqn:Hreg; [discriminate|].
      apply registerDomain_frame in Hreg as [Hr Hc].
      destruct (verifyDomainIfNeeded _ _ reg w1) as [[[reg2 v] verr] w2] eqn:Hver.
      apply verify_frame in Hver. subst w2.
      destruct verr; intros H; inversion H; subst; simpl; now split.
    + unfold bind. destruct (client.Update _ w) as [[r|e] w1]; discriminate.
Qed.

Lemma Ensure_error reg w obj e w' :
  finalizer.Ensure reg DomainFinalizer w = ((obj, false, Some e), w') ->
  registrations w' = registrations w.
Proof.
  unfold finalizer.Ensure, bind.
  destruct (finalizer.has DomainFinalizer reg); [discriminate|].
  destruct (client.Update _ w) as [[r|e'] w1] eqn:Hup; [discriminate|].
  apply Update_Err in Hup. intros H; inversion H; subst. reflexivity.
Qed.

(** When the store answers the patch with an error, [registerDomain] does
    not try again: it returns the error after one read and one patch
    attempt and has written nothing; [Reconcile] returns that error and
    persists nothing on the registration. *)
Theorem register_conflict_is_returned (req : string * string) (w : World)
    (reg : CustomDomainRegistration) (w1 : World) (d : CustomDomain)
    (w2 : World) (e : error) (w3 : World) :
  client.Get_CustomDomainRegistration req w = (Ok reg, w1) ->
  metav1.DeletionTimestamp (RegObjectMeta reg) = None ->
  finalizer.has DomainFinalizer reg = true ->
  client.Get_CustomDomain (regName reg) w1 = (Ok d, w2) ->
  slice.ContainsObjectReference (Registrations (Spec d)) reg = false ->
  client.Patch_
    (domain_with_Registrations d (Registrations (Spec d) ++ [regRefOf reg]))
    (client.MergeFrom (DeepCopy d)) w2 = (Err e, w3) ->
  registerDomain reg w1 = (Some e, w3) /\
  calls w3 = calls w1 ++ [GetDomain (regName reg);
                          PatchDomain (client.domain_name d)] /\
  domains w3 = client.domains_at_next_call w2 /\
  Reconcile VerificationTokenGenerator MakeDNSRecordName DomainFinalizer req w =
    (({| ctrl.Requeue := false |}, Some e), w3) /\
  registrations w3 = registrations w.
Proof.
  intros Hget Hdel Hhas Hdom Habsent Hpatch.
  assert (Hreg : registerDomain reg w1 = (Some e, w3)).
  { erewrite registerDomain_absent by eassumption. now rewrite Hpatch. }
  split; [exact Hreg|].
  pose proof (Patch_Err _ _ _ Hpatch) as Hw3.
  destruct (Get_CustomDomain_Ok _ _ Hdom) as [Hw2 _].
  destruct (Get_CustomDomainRegistration_Ok _ _ Hget) as [Hw1 _].
  repeat split.
  - subst w3 w2. simpl. now rewrite <- app_assoc.
  - now subst w3.
  - erewrite Reconcile_branch by eassumption.
    unfold runBranch. rewrite Hdel.
    erewrite normalBranch_register_error by eassumption. reflexivity.
  - now subst w3 w2 w1.
Qed.

(** C10: an error-free [unregisterDomain] always reports
    [stillRegistered = false].  In the deletion branch it therefore always
    produces [Accepted = False] and asks for the finalizer to be removed:
    the pass goes on with the status update carrying that condition and,
    once the update is through, removes the finalizer. *)
Theorem unregister_success_finalizes (req : string * string) (w : World)
    (reg : CustomDomainRegistration) (t : metav1.Time) (w1 : World)
    (registered : bool) (w2 : World) :
  client.Get_CustomDomainRegistration req w = (Ok reg, w1) ->
  metav1.DeletionTimestamp (RegObjectMeta reg) = Some t ->
  unregisterDomain reg w1 = ((registered, None), w2) ->
  let accepted := condition_of RegistrationAccepted metav1.ConditionFalse "" in
  registered = false /\
  deletionBranch reg w1 = (Proceed reg [accepted] true, w2) /\
  Reconcile VerificationTokenGenerator MakeDNSRecordName DomainFinalizer req w =
    persist DomainFinalizer reg [accepted] true w2 /\
  (forall stored w3,
     client.Status_Update (submitted (clock w2) reg [accepted]) w2 = (Ok stored, w3) ->
     Reconcile VerificationTokenGenerator MakeDNSRecordName DomainFinalizer req w =
       let (r, w4) := finalizer.Remove stored DomainFinalizer w3 in
       (({| ctrl.Requeue := false |}, snd r), w4)).
Proof.
  intros Hget Hdel Hun accepted.
  pose proof (unregisterDomain_success _ _ Hun) as ->.
  pose proof (deletionBranch_eq _ _ Hun) as Hbranch. simpl in Hbranch.
  assert (Hrec : Reconcile VerificationTokenGenerator MakeDNSRecordName
                   DomainFinalizer req w =
                 persist DomainFinalizer reg [accepted] true w2).
  { erewrite Reconcile_branch by eassumption.
    unfold runBranch. rewrite Hdel, Hbranch. reflexivity. }
  repeat split; [exact Hbranch|exact Hrec|].
  intros stored w3 Hsu. rewrite Hrec, persist_eq, Hsu. reflexivity.
Qed.

(** C3 (as the code has it): a store failure aborts the pass, which then
    returns that error and has persisted nothing on the registration, when
    the failing call is the read of the registration, the write that
    ensures the finalizer, a call of [registerDomain] or the status update
    itself.  A failure inside [unregisterDomain] or [verifyDomainIfNeeded]
    does not abort the pass: it becomes the condition [Accepted = Unknown],
    respectively [Verified = Unknown], with the error message, and the
    pass goes on to persist that status and returns no error when the
    update is through. *)
Theorem store_failure_aborts_or_is_recorded (req : string * string)
    (w : World) (e : error) :
  (aborting VerificationTokenGenerator MakeDNSRecordName DomainFinalizer req w e ->
   exists w',
     Reconcile VerificationTokenGenerator MakeDNSRecordName DomainFinalizer req w =
       (({| ctrl.Requeue := false |}, Some e), w') /\
     registrations w' = registrations w) /\
  (forall type reg w2,
     recorded VerificationTokenGenerator MakeDNSRecordName DomainFinalizer
       req w e type reg w2 ->
     let unknown := condition_of type metav1.ConditionUnknown (Error e) in
     Reconcile VerificationTokenGenerator MakeDNSRecordName DomainFinalizer req w =
       persist DomainFinalizer reg [unknown] false w2 /\
     registrations w2 = registrations w /\
     forall stored w3,
       client.Status_Update (submitted (clock w2) reg [unknown]) w2 = (Ok stored, w3) ->
       Reconcile VerificationTokenGenerator MakeDNSRecordName DomainFinalizer req w =
         (({| ctrl.Requeue := false |}, None), w3) /\
       stored.status w3 (key_of reg) = Some (RegStatus (submitted (clock w2) reg [unknown]))).
Proof.
  split.
  - intros [w1 Hget Hnf | reg w1 obj w2 Hget Hdel Hens
           | reg w1 w2 Hget Hdel Hhas Hreg
           | reg w1 reg' conds doFin w2 w3 Hget Hbranch Hsu].
    + exists w1. split.
      * erewrite Reconcile_read_error by eassumption.
        unfold client.IgnoreNotFound. now rewrite Hnf.
      * pose proof (Get_CustomDomainRegistration_world req w) as Hw.
        rewrite Hget in Hw; simpl in Hw. now subst w1.
    + exists w2. split.
      * erewrite Reconcile_branch by eassumption.
        unfold runBranch. rewrite Hdel. unfold normalBranch, bind.
        now rewrite Hens.
      * apply Ensure_error in Hens. rewrite Hens.
        apply Get_CustomDomainRegistration_Ok in Hget as [-> _]. reflexivity.
    + exists w2. split.
      * erewrite Reconcile_branch by eassumption.
        unfold runBranch. rewrite Hdel.
        erewrite normalBranch_register_error by eassumption. reflexivity.
      * apply registerDomain_frame in Hreg as [-> _].
        apply Get_CustomDomainRegistration_Ok in Hget as [-> _]. reflexivity.
    + exists w3. split.
      * erewrite Reconcile_branch by eassumption.
        rewrite Hbranch, persist_eq, Hsu. reflexivity.
      * apply Status_Update_Err in Hsu. subst w3. simpl.
        apply runBranch_Proceed_frame in Hbranch as [-> _].
        apply Get_CustomDomainRegistration_Ok in Hget as [-> _]. reflexivity.
  - intros type reg w2 Hrec unknown. subst unknown.
    assert (Hpass :
      Reconcile VerificationTokenGenerator MakeDNSRecordName DomainFinalizer req w =
        persist DomainFinalizer reg
          [condition_of type metav1.ConditionUnknown (Error e)] false w2 /\
      registrations w2 = registrations w).
    { destruct Hrec as [reg w1 t registered w2 Hget Hdel Hun
                       | reg w1 w2 reg' verified w3 Hget Hdel Hhas Hreg Hver].
      - split.
        + erewrite Reconcile_branch by eassumption.
          unfold runBranch. rewrite Hdel.
          erewrite deletionBranch_eq by eassumption. reflexivity.
        + apply unregisterDomain_frame in Hun as [-> _].
          apply Get_CustomDomainRegistration_Ok in Hget as [-> _]. reflexivity.
      - split.
        + erewrite Reconcile_branch by eassumption.
          unfold runBranch. rewrite Hdel.
          erewrite normalBranch_verify by eassumption. reflexivity.
        + apply verify_frame in Hver. subst w3. simpl.
          apply registerDomain_frame in Hreg as [-> _].
          apply Get_CustomDomainRegistration_Ok in Hget as [-> _]. reflexivity. }
    destruct Hpass as [Hpass Hframe]. repeat split; [exact Hpass|exact Hframe|..].
    + rewrite Hpass, persist_eq, H. reflexivity.
    + apply Status_Update_Ok in H as (old & _ & Hst & _ & _ & Hregs & _).
      unfold stored.status. rewrite Hregs.
      change (key_of (submitted (clock w2) reg
                [condition_of type metav1.ConditionUnknown (Error e)]))
        with (key_of reg).
      rewrite lookup_insert_eq. simpl. now rewrite Hst.
Qed.

(** A status update leaves every stored registration its finalizers. *)
Lemma Status_Update_finalizers r w r' w' key :
  client.Status_Update r w = (Ok r', w') ->
  stored.finalizers w' key = stored.finalizers w key.
Proof.
  intros Hsu.
  apply Status_Update_Ok in Hsu as (old & Hold & _ & Hfin & _ & Hregs & _).
  unfold stored.finalizers. rewrite Hregs.
  destruct (decide (key_of r = key)) as [<-|Hne].
  - rewrite lookup_insert_eq, Hold. simpl. now rewrite Hfin.
  - now rewrite lookup_insert_ne.
Qed.

Lemma removed_marker_absent marker fs :
  existsb (String.eqb marker)
    (List.filter (fun f => negb (String.eqb marker f)) fs) = false.
Proof.
  induction fs as [|f fs IH]; simpl; [reflexivity|].
  destruct (String.eqb marker f) eqn:Heq; simpl; [exact IH|].
  now rewrite Heq.
Qed.

(** C2: a pass over a registration whose [deletionTimestamp] is set.
    Whatever [unregisterDomain] returns, the pass goes on with the status
    update of the one condition [Accepted]: [Unknown] with the error
    message when [unregisterDomain] failed, [status-of(stillRegistered)]
    when it succeeded; the finalizer removal is asked for only in the
    latter case and only when [stillRegistered] is false.  In store terms,
    for a registration stored under its own namespace and name: when the
    removal is not asked for, every stored registration keeps its
    finalizers; when the pass returns no error the stored conditions are
    the merged [Accepted] condition and, if the removal was asked for, the
    marker is gone; and the stored finalizers change only if
    [unregisterDomain] returned no error and [stillRegistered = false]. *)
Theorem deletion_pass (req : string * string) (w : World)
    (reg : CustomDomainRegistration) (t : metav1.Time) (w1 : World)
    (registered : bool) (uerr : option error) (w2 : World) :
  client.Get_CustomDomainRegistration req w = (Ok reg, w1) ->
  metav1.DeletionTimestamp (RegObjectMeta reg) = Some t ->
  key_of reg = req ->
  unregisterDomain reg w1 = ((registered, uerr), w2) ->
  let accepted :=
    match uerr with
    | Some e => condition_of RegistrationAccepted metav1.ConditionUnknown (Error e)
    | None => condition_of RegistrationAccepted (condition.ToStatus registered) ""
    end in
  let removable :=
    match uerr with Some _ => false | None => negb registered end in
  Reconcile VerificationTokenGenerator MakeDNSRecordName DomainFinalizer req w =
    persist DomainFinalizer reg [accepted] removable w2 /\
  forall res err w3,
    Reconcile VerificationTokenGenerator MakeDNSRecordName DomainFinalizer req w =
      ((res, err), w3) ->
    (removable = false ->
     forall key, stored.finalizers w3 key = stored.finalizers w key) /\
    (err = None ->
     stored.conditions w3 req =
       Some (condition.merge (clock w) [accepted] (Conditions (RegStatus reg))) /\
     (removable = true ->
      exists fs, stored.finalizers w3 req = Some fs /\
                 existsb (String.eqb DomainFinalizer) fs = false)) /\
    (stored.finalizers w3 req <> stored.finalizers w req ->
     uerr = None /\ registered = false).
Proof.
  intros Hget Hdel Hkey Hun accepted removable.
  assert (Hrec : Reconcile VerificationTokenGenerator MakeDNSRecordName
                   DomainFinalizer req w =
                 persist DomainFinalizer reg [accepted] removable w2).
  { erewrite Reconcile_branch by eassumption.
    unfold runBranch. rewrite Hdel.
    erewrite deletionBranch_eq by eassumption. reflexivity. }
  split; [exact Hrec|].
  destruct (Get_CustomDomainRegistration_Ok _ _ Hget) as [Hw1 Hstored].
  destruct (unregisterDomain_frame _ _ Hun) as [Hregs2 Hclock2].
  assert (Hregs : registrations w2 = registrations w)
    by (rewrite Hregs2, Hw1; reflexivity).
  assert (Hclock : clock w2 = clock w)
    by (rewrite Hclock2, Hw1; reflexivity).
  intros res err w3. rewrite Hrec, persist_eq.
  assert (Hkeep : removable = false ->
            forall res err w3,
              match client.Status_Update
                      (submitted (clock w2) reg [accepted]) w2 with
              | (Err e, w4) => (({| ctrl.Requeue := false |}, Some e), w4)
              | (Ok _, w4) => (({| ctrl.Requeue := false |}, None), w4)
              end = ((res, err), w3) ->
              forall key, stored.finalizers w3 key = stored.finalizers w key).
  { intros _ res' err' w3'.
    destruct (client.Status_Update _ w2) as [[reg1|e] w4] eqn:Hsu;
      intros H; inversion H; subst; clear H; intros key.
    - rewrite (Status_Update_finalizers _ _ key Hsu).
      unfold stored.finalizers. now rewrite Hregs.
    - apply Status_Update_Err in Hsu. subst w3'.
      unfold stored.finalizers. simpl. now rewrite Hregs. }
  destruct removable eqn:Hrem.
  - (* the removal is asked for *)
    assert (Hok : uerr = None /\ registered = false).
    { subst removable. destruct uerr; [discriminate|].
      destruct registered; [discriminate|]. now split. }
    destruct (client.Status_Update _ w2) as [[reg1|e] w4] eqn:Hsu.
    + destruct (Status_Update_Ok _ _ Hsu)
        as (old & Hold & Hst & Hfin & Hk & Hregs4 & _).
      change (key_of (submitted (clock w2) reg [accepted])) with (key_of reg)
        in Hold, Hregs4.
      rewrite Hregs, Hkey, Hstored in Hold. inversion Hold; subst old; clear Hold.
      unfold finalizer.Remove, bind.
      destruct (client.Update _ w4) as [[reg2|e] w5] eqn:Hup;
        intros H; inversion H; subst res err w3; clear H.
      * apply Update_Ok in Hup as (Hst2 & Hfin2 & Hk2 & Hregs5 & _).
        simpl in Hst2, Hfin2, Hk2, Hregs5.
        change (key_of (reg_with_ObjectMeta reg1 _)) with (key_of reg1)
          in Hk2, Hregs5.
        rewrite Hk in Hk2, Hregs5. rewrite Hkey in Hregs5.
        split; [discriminate|]. split; [|intros _; exact Hok].
        intros _. split.
        -- unfold stored.conditions. rewrite Hregs5, lookup_insert_eq. simpl.
           rewrite Hst2, Hst. simpl. now rewrite Hclock.
        -- intros _. eexists. split.
           ++ unfold stored.finalizers. rewrite Hregs5, lookup_insert_eq.
              simpl. rewrite Hfin2. reflexivity.
           ++ apply removed_marker_absent.
      * split; [discriminate|]. split; [discriminate|]. intros _; exact Hok.
    + intros H; inversion H; subst res err w3; clear H.
      split; [discriminate|]. split; [discriminate|]. intros _; exact Hok.
  - (* the removal is not asked for *)
    intros Hrun. split; [intros _; now apply (Hkeep eq_refl res err)|].
    split.
    + intros ->. destruct (client.Status_Update _ w2) as [[reg1|e] w4] eqn:Hsu;
        inversion Hrun; subst; clear Hrun.
      split; [|discriminate].
      apply Status_Update_Ok in Hsu as (old & _ & Hst & _ & _ & Hregs4 & _).
      change (key_of (submitted (clock w2) reg [accepted])) with (key_of reg)
        in Hregs4.
      unfold stored.conditions. rewrite Hregs4, lookup_insert_eq. simpl.
      rewrite Hst. simpl. now rewrite Hclock.
    + intros Hchanged. exfalso. apply Hchanged.
      now apply (Hkeep eq_refl res err).
Qed.

End Pass.

(** ** The pass on concrete clusters *)

Section Runs.

Import controllers.

(** C1: the code does not do what the claim asks.  The patch of
    [registerDomain] is built by [client.MergeFrom], so the store applies it
    to whatever it holds: when another writer has stored the Domain between
    the read and the patch, the patch is not rejected, there is no second
    read, and the list that was read, with the reference appended, replaces
    the stored one.  A reference the other writer bound in between is
    gone. *)
Theorem register_overwrites_concurrent_binding
    (reg : CustomDomainRegistration) (w : World) (d : CustomDomain)
    (w1 : World) (other : CustomDomain) (rest : list Event) :
  client.Get_CustomDomain (regName reg) w = (Ok d, w1) ->
  slice.ContainsObjectReference (Registrations (Spec d)) reg = false ->
  script w1 = Concurrent other :: rest ->
  client.domain_name other = client.domain_name d ->
  exists w2 stored,
    registerDomain reg w = (None, w2) /\
    calls w2 = calls w ++ [GetDomain (regName reg);
                           PatchDomain (client.domain_name d)] /\
    domains w2 !! client.domain_name d = Some stored /\
    Registrations (Spec stored) = Registrations (Spec d) ++ [regRefOf reg] /\
    (forall ref, In ref (Registrations (Spec other)) ->
       ~ In ref (Registrations (Spec d)) -> ref <> regRefOf reg ->
       ~ In ref (Registrations (Spec stored))).
Proof.
  intros Hget Habsent Hscript Hname.
  destruct (Get_CustomDomain_Ok _ _ Hget) as [Hw1 _].
  set (bumped := domain_with_ResourceVersion other
                   (S match domains w1 !! client.domain_name other with
                      | Some old => client.domain_version old
                      | None => 0
                      end)).
  set (modified := domain_with_Registrations d
                     (Registrations (Spec d) ++ [regRefOf reg])).
  assert (Hpatch : exists w2,
            client.Patch_ modified (client.MergeFrom (DeepCopy d)) w1 =
              (Ok (client.patched (DeepCopy d) modified bumped), w2) /\
            domains w2 !! client.domain_name d =
              Some (client.patched (DeepCopy d) modified bumped) /\
            calls w2 = calls w1 ++ [PatchDomain (client.domain_name d)]).
  { unfold client.Patch_, bind, client.begin, ret.
    unfold client.next_fault. rewrite Hscript. simpl.
    unfold client.domains_at_next_call. rewrite Hscript.
    unfold client.concurrent_write. fold bumped.
    change (client.domain_name modified) with (client.domain_name d).
    rewrite Hname, lookup_insert_eq. eexists. split; [reflexivity|]. simpl.
    split; [apply lookup_insert_eq|reflexivity]. }
  destruct Hpatch as (w2 & Hpatch & Hstored & Hcalls).
  destruct (@patched_registrations d _ bumped
              (appended_differs (Registrations (Spec d)) (regRefOf reg)))
    as (Hspec & _).
  fold modified in Hspec.
  exists w2, (client.patched (DeepCopy d) modified bumped). repeat split.
  - erewrite registerDomain_absent by eassumption. fold modified.
    now rewrite Hpatch.
  - rewrite Hcalls, Hw1. simpl. now rewrite <- app_assoc.
  - exact Hstored.
  - now rewrite Hspec.
  - rewrite Hspec. simpl. intros ref _ Hnot Hne Hin.
    apply in_app_or in Hin as [Hin|[Hin|[]]]; [now apply Hnot|congruence].
Qed.

Lemma register_overwrites_concurrent_binding_witness :
  let w := client.after_call (GetRegistration Scenario.acme) Scenario.contended in
  exists w2 stored,
    registerDomain Scenario.r1 w = (None, w2) /\
    domains w2 !! "acme" = Some stored /\
    Registrations (Spec stored) = [regRefOf Scenario.r2; regRefOf Scenario.r1] /\
    ~ In (regRefOf Scenario.r3) (Registrations (Spec stored)).
Proof.
  intros w.
  destruct (@register_overwrites_concurrent_binding Scenario.r1 w
              (Scenario.domain "acme" [Scenario.r2] None)
              (client.after_call (GetDomain "acme") w)
              (Scenario.domain "acme" [Scenario.r2; Scenario.r3] None) [])
    as (w2 & stored & Hrun & _ & Hstored & Hregs & Hgone).
  - reflexivity.
  - reflexivity.
  - reflexivity.
  - reflexivity.
  - exists w2, stored. repeat split; try assumption.
    apply Hgone.
    + right; left; reflexivity.
    + intros [H|[]]; discriminate.
    + discriminate.
Defined.

(** The whole pass on the contended cluster: it returns no error after one
    read and one patch of the Domain, and the Domain lists [r2] and [r1]
    only, though [r3] was bound when the patch arrived. *)
Example contended_pass_erases_binding :
  let out := Scenario.run Scenario.acme Scenario.contended in
  snd (fst out) = None /\
  calls (snd out) =
    [GetRegistration Scenario.acme; GetDomain "acme"; PatchDomain "acme";
     GetDomain "acme"; UpdateRegistrationStatus Scenario.acme] /\
  (Registrations <$> (Spec <$> domains (snd out) !! "acme")) =
    Some [regRefOf Scenario.r2; regRefOf Scenario.r1].
Proof. vm_compute. repeat split. Qed.

(** The deletion scenario: [r1] is deleted while it is the only
    registration bound to [acme].  After the pass the Domain lists no
    registration, [Accepted] is [False] and the finalizer is gone. *)
Example deletion_scenario :
  let out := Scenario.run Scenario.acme Scenario.deleting in
  snd (fst out) = None /\
  (Registrations <$> (Spec <$> domains (snd out) !! "acme")) = Some [] /\
  stored.conditions (snd out) Scenario.acme =
    Some [ {| api.Type_ := "Accepted"; api.Status := metav1.ConditionFalse;
              api.LastTransitionTime := 9; api.Message := "" |} ] /\
  stored.finalizers (snd out) Scenario.acme = Some [].
Proof. vm_compute. repeat split. Qed.

Lemma deletion_pass_witness :
  let out := Scenario.run Scenario.acme Scenario.deleting in
  stored.conditions (snd out) Scenario.acme =
    Some (condition.merge 9
            [condition_of RegistrationAccepted metav1.ConditionFalse ""] []) /\
  exists fs, stored.finalizers (snd out) Scenario.acme = Some fs /\
             existsb (String.eqb Scenario.fin) fs = false.
Proof.
  intros out.
  pose (w1 := client.after_call (GetRegistration Scenario.acme) Scenario.deleting).
  destruct (@deletion_pass Scenario.gen Scenario.mk Scenario.fin
              Scenario.acme Scenario.deleting Scenario.r1_deleting 5 w1
              false None (snd (unregisterDomain Scenario.r1_deleting w1)))
    as [_ Hstore].
  - reflexivity.
  - reflexivity.
  - reflexivity.
  - vm_compute. reflexivity.
  - destruct (Hstore (fst (fst out)) (snd (fst out)) (snd out))
      as (_ & Hpersisted & _).
    + vm_compute. reflexivity.
    + destruct Hpersisted as [Hconds Hfin]; [reflexivity|].
      split; [exact Hconds|]. apply Hfin. reflexivity.
Defined.

Lemma unregister_success_finalizes_witness :
  let w1 := client.after_call (GetRegistration Scenario.acme) Scenario.deleting in
  let w2 := snd (unregisterDomain Scenario.r1_deleting w1) in
  deletionBranch Scenario.r1_deleting w1 =
    (Proceed Scenario.r1_deleting
       [condition_of RegistrationAccepted metav1.ConditionFalse ""] true, w2).
Proof.
  intros w1 w2.
  destruct (@unregister_success_finalizes Scenario.gen Scenario.mk Scenario.fin
              Scenario.acme Scenario.deleting Scenario.r1_deleting 5 w1 false w2)
    as (_ & Hbranch & _).
  - reflexivity.
  - reflexivity.
  - vm_compute. reflexivity.
  - exact Hbranch.
Defined.

(** C3 (as stated): on this cluster the read of the Domain made by
    [unregisterDomain] fails with a store error, yet the pass returns no
    error and the status it persists differs from the one it found. *)
Lemma store_failure_counterexample :
  let out := Scenario.run Scenario.acme Scenario.deleting_unreachable in
  client.next_fault
    (client.after_call (GetRegistration Scenario.acme) Scenario.deleting_unreachable)
    = Some (ErrStore "etcd unavailable") /\
  snd (fst out) = None /\
  stored.conditions Scenario.deleting_unreachable Scenario.acme = Some [] /\
  stored.conditions (snd out) Scenario.acme =
    Some [ {| api.Type_ := "Accepted"; api.Status := metav1.ConditionUnknown;
              api.LastTransitionTime := 9; api.Message := "etcd unavailable" |} ].
Proof. vm_compute. repeat split. Qed.

Lemma store_failure_aborts_or_is_recorded_witness :
  (exists w',
     Scenario.run Scenario.acme Scenario.binding_unreachable =
       (({| ctrl.Requeue := false |}, Some (ErrStore "etcd unavailable")), w') /\
     registrations w' = registrations Scenario.binding_unreachable) /\
  (exists w2,
     Scenario.run Scenario.acme Scenario.deleting_unreachable =
       persist Scenario.fin Scenario.r1_deleting
         [condition_of RegistrationAccepted metav1.ConditionUnknown
            "etcd unavailable"] false w2).
Proof.
  split.
  - apply (proj1 (@store_failure_aborts_or_is_recorded
                    Scenario.gen Scenario.mk Scenario.fin Scenario.acme
                    Scenario.binding_unreachable (ErrStore "etcd unavailable"))).
    eapply register_fails with (reg := Scenario.r1).
    + reflexivity.
    + reflexivity.
    + reflexivity.
    + vm_compute. reflexivity.
  - eexists.
    apply (proj2 (@store_failure_aborts_or_is_recorded
                    Scenario.gen Scenario.mk Scenario.fin Scenario.acme
                    Scenario.deleting_unreachable (ErrStore "etcd unavailable"))
             RegistrationAccepted Scenario.r1_deleting).
    eapply unregister_fails with (t := 5) (registered := false).
    + reflexivity.
    + reflexivity.
    + vm_compute. reflexivity.
Defined.

End Runs.

(** * Further properties of the controller *)

(** ** The watch: which registrations a Domain event re-delivers *)

Section Watch.

Import controllers.

Lemma ToRequests_of_reference (ref : corev1.ObjectReference) reg :
  slice.matches (RegObjectMeta reg) ref = true ->
  (corev1.Namespace ref, corev1.Name ref) = key_of reg.
Proof.
  unfold slice.matches, key_of. rewrite !andb_true_iff, !String.eqb_eq.
  intros [[-> ->] _]. reflexivity.
Qed.

(** The requests are the references of the Domain, one for one and in
    order: a request is mapped exactly when some reference of the list
    carries its namespace and name.  A Domain without registrations maps to
    no request, and references that differ in UID only are not merged. *)
Theorem ToRequests_spec (d : CustomDomain) :
  length (handler.ToRequests d) = length (Registrations (Spec d)) /\
  (forall i ref, nth_error (Registrations (Spec d)) i = Some ref ->
     nth_error (handler.ToRequests d) i =
       Some {| handler.NamespacedName := (corev1.Namespace ref, corev1.Name ref) |}) /\
  (forall req, In req (handler.ToRequests d) <->
     exists ref, In ref (Registrations (Spec d)) /\
       handler.NamespacedName req = (corev1.Namespace ref, corev1.Name ref)) /\
  (Registrations (Spec d) = [] -> handler.ToRequests d = []).
Proof.
  unfold handler.ToRequests. repeat split.
  - apply length_map.
  - intros i ref Hi. now rewrite nth_error_map, Hi.
  - intros Hin. apply in_map_iff in Hin as (ref & <- & Href). now exists ref.
  - intros (ref & Href & Hreq). apply in_map_iff. exists ref. split; [|exact Href].
    destruct req as [nn]. simpl in Hreq. now rewrite Hreq.
  - now intros ->.
Qed.

(** A registration a Domain holds a reference to is among the requests a
    change of that Domain enqueues. *)
Theorem bound_registration_is_requeued (d : CustomDomain)
    (reg : CustomDomainRegistration) :
  slice.ContainsObjectReference (Registrations (Spec d)) reg = true ->
  In {| handler.NamespacedName := key_of reg |} (handler.ToRequests d).
Proof.
  unfold slice.ContainsObjectReference, handler.ToRequests.
  intros H. apply existsb_exists in H as (ref & Hin & Hm).
  apply in_map_iff. exists ref. split; [|exact Hin].
  now rewrite (ToRequests_of_reference _ _ Hm).
Qed.

Lemma bound_registration_is_requeued_witness :
  In {| handler.NamespacedName := ("ns", "acme") |}
     (handler.ToRequests (Scenario.domain "acme" [Scenario.r2; Scenario.r1] None)).
Proof.
  apply (bound_registration_is_requeued
           (Scenario.domain "acme" [Scenario.r2; Scenario.r1] None) Scenario.r1).
  reflexivity.
Defined.

End Watch.

(** ** More on binding and unbinding *)

Section Binding.

Import controllers.

(** Whenever [registerDomain] returns an error it has written nothing:
    the world it leaves is the one that received its read, or its read and
    one create or patch, so every Domain is as the other writers left it.
    This holds for a failed read, a lost create race and a rejected patch
    alike. *)
Theorem register_error_writes_nothing (reg : CustomDomainRegistration)
    (w : World) (e : error) (w' : World) :
  registerDomain reg w = (Some e, w') ->
  let w1 := client.after_call (GetDomain (regName reg)) w in
  w' = w1 \/
  w' = client.after_call (CreateDomain (regName reg)) w1 \/
  exists name, w' = client.after_call (PatchDomain name) w1.
Proof.
  intros Hrun w1. revert Hrun. unfold registerDomain, bind.
  destruct (client.Get_CustomDomain (regName reg) w) as [[d|e0] w0] eqn:Hget.
  all: pose proof (Get_CustomDomain_world (regName reg) w) as Hw;
    rewrite Hget in Hw; simpl in Hw; subst w0; fold w1.
  - destruct (negb _); [|discriminate].
    destruct (client.Patch_ _ _ w1) as [[d'|e1] w2] eqn:Hp; [discriminate|].
    apply Patch_Err in Hp. intros H; inversion H; subst. right; right. eauto.
  - destruct (negb _).
    + intros H; inversion H; subst. now left.
    + destruct (client.Create _ w1) as [[d'|e1] w2] eqn:Hc; [discriminate|].
      apply Create_Err in Hc. intros H; inversion H; subst. right; now left.
Qed.

Lemma register_error_writes_nothing_witness :
  let w1 := client.after_call (GetDomain "acme") Fixtures.create_race in
  let w' := snd (registerDomain Scenario.r1 Fixtures.create_race) in
  fst (registerDomain Scenario.r1 Fixtures.create_race) = Some ErrAlreadyExists /\
  (w' = w1 \/
   w' = client.after_call (CreateDomain "acme") w1 \/
   exists name, w' = client.after_call (PatchDomain name) w1).
Proof.
  intros w1 w'. split; [reflexivity|].
  apply (@register_error_writes_nothing Scenario.r1 Fixtures.create_race
           ErrAlreadyExists w').
  vm_compute. reflexivity.
Defined.

(** When the Domain read lacks the reference and the patch goes through,
    the stored Domain gets the list that was read with the reference
    appended at the end: the references of the list read stay, in their
    order.  Its verification key and status are those the store held when
    the patch arrived, and no other Domain is written. *)
Theorem register_appends (reg : CustomDomainRegistration) (w : World)
    (d : CustomDomain) (w1 : World) (d' : CustomDomain) (w2 : World) :
  client.Get_CustomDomain (regName reg) w = (Ok d, w1) ->
  slice.ContainsObjectReference (Registrations (Spec d)) reg = false ->
  client.Patch_
    (domain_with_Registrations d (Registrations (Spec d) ++ [regRefOf reg]))
    (client.MergeFrom (DeepCopy d)) w1 = (Ok d', w2) ->
  registerDomain reg w = (None, w2) /\
  domains w2 !! client.domain_name d = Some d' /\
  Registrations (Spec d') = Registrations (Spec d) ++ [regRefOf reg] /\
  (forall other,
     slice.ContainsObjectReference (Registrations (Spec d)) other = true ->
     slice.ContainsObjectReference (Registrations (Spec d')) other = true) /\
  (exists stored,
     client.domains_at_next_call w1 !! client.domain_name d = Some stored /\
     VerificationKey (Spec d') = VerificationKey (Spec stored) /\
     Status d' = Status stored) /\
  (forall name, name <> client.domain_name d ->
     domains w2 !! name = client.domains_at_next_call w1 !! name).
Proof.
  intros Hget Habsent Hpatch.
  assert (Hrun : registerDomain reg w = (None, w2)).
  { erewrite registerDomain_absent by eassumption. now rewrite Hpatch. }
  apply Patch_Ok in Hpatch as ((stored & Hstored & ->) & Hd & _).
  change (client.domain_name (domain_with_Registrations d _))
    with (client.domain_name d) in Hd, Hstored.
  destruct (@patched_registrations d _ stored
              (appended_differs (Registrations (Spec d)) (regRefOf reg)))
    as (Hspec & Hstatus & _).
  simpl client.base. repeat split; try exact Hrun.
  - rewrite Hd. apply lookup_insert_eq.
  - now rewrite Hspec.
  - intros other Hother. rewrite Hspec. simpl.
    rewrite Contains_app, Hother. reflexivity.
  - exists stored. rewrite Hspec. now repeat split.
  - intros name Hne. rewrite Hd. now rewrite lookup_insert_ne by congruence.
Qed.

Lemma register_appends_witness :
  let w2 := snd (registerDomain Scenario.r1 Fixtures.shared) in
  exists d',
    registerDomain Scenario.r1 Fixtures.shared = (None, w2) /\
    domains w2 !! "acme" = Some d' /\
    Registrations (Spec d') = [regRefOf Scenario.r2; regRefOf Scenario.r1].
Proof.
  intros w2.
  pose (w1 := client.after_call (GetDomain "acme") Fixtures.shared).
  pose (d := Scenario.domain "acme" [Scenario.r2] None).
  pose (d1 := client.patched d
                (domain_with_Registrations d
                   (Registrations (Spec d) ++ [regRefOf Scenario.r1])) d).
  destruct (@register_appends Scenario.r1 Fixtures.shared d w1 d1 w2)
    as (Hrun & Hd & Hregs & _).
  - reflexivity.
  - reflexivity.
  - vm_compute. reflexivity.
  - exists d1. repeat split; assumption.
Defined.

End Binding.

Section Unbinding.

Import controllers.

(** After a [registerDomain] that returned no error the Domain stored under
    the registration's name holds a reference to it, whichever way the call
    went (created, appended, already there), and a change of that Domain
    re-delivers the registration.  The Domain read is the one stored under
    its own name. *)
Theorem register_binds (reg : CustomDomainRegistration) (w w' : World) :
  (forall d, client.domains_at_next_call w !! regName reg = Some d ->
             client.domain_name d = regName reg) ->
  registerDomain reg w = (None, w') ->
  exists d',
    domains w' !! regName reg = Some d' /\
    slice.ContainsObjectReference (Registrations (Spec d')) reg = true /\
    In {| handler.NamespacedName := key_of reg |} (handler.ToRequests d').
Proof.
  intros Hkeyed Hrun.
  assert (Hbound : exists d', domains w' !! regName reg = Some d' /\
            slice.ContainsObjectReference (Registrations (Spec d')) reg = true).
  { revert Hrun. unfold registerDomain, bind.
    destruct (client.Get_CustomDomain (regName reg) w) as [[d|e] w1] eqn:Hget.
    - destruct (Get_CustomDomain_Ok _ _ Hget) as [Hw1 Hl].
      assert (Hname : client.domain_name d = regName reg).
      { apply Hkeyed. now rewrite Hw1 in Hl. }
      destruct (slice.ContainsObjectReference _ reg) eqn:Hin; simpl.
      + intros H; inversion H; subst w'. now exists d.
      + destruct (client.Patch_ _ _ w1) as [[d'|e] w2] eqn:Hp; [|discriminate].
        intros H; inversion H; subst w2; clear H.
        apply Patch_Ok in Hp as ((stored & _ & ->) & Hd & _).
        change (client.domain_name (domain_with_Registrations d _))
          with (client.domain_name d) in Hd.
        destruct (@patched_registrations d _ stored
                    (appended_differs (Registrations (Spec d)) (regRefOf reg)))
          as (Hs & _).
        eexists. split.
        * rewrite Hd, Hname. apply lookup_insert_eq.
        * simpl client.base. rewrite Hs. simpl. apply Contains_appended.
    - destruct (negb _); [discriminate|].
      destruct (client.Create _ w1) as [[d'|e'] w2] eqn:Hc; [|discriminate].
      intros H; inversion H; subst w2; clear H.
      apply Create_Ok in Hc as (-> & _ & Hd & _).
      eexists. split.
      + rewrite Hd. unfold client.domain_name; simpl. apply lookup_insert_eq.
      + simpl. unfold slice.ContainsObjectReference; simpl.
        now rewrite matches_regRefOf. }
  destruct Hbound as (d' & Hd' & Hin). exists d'. repeat split; try assumption.
  unfold slice.ContainsObjectReference in Hin.
  apply existsb_exists in Hin as (ref & Href & Hm).
  unfold handler.ToRequests. apply in_map_iff. exists ref. split; [|exact Href].
  unfold slice.matches in Hm. rewrite !andb_true_iff, !String.eqb_eq in Hm.
  destruct Hm as [[-> ->] _]. reflexivity.
Qed.

Lemma register_binds_witness :
  exists d',
    domains (snd (registerDomain Scenario.r1 Fixtures.shared)) !! "acme" = Some d' /\
    slice.ContainsObjectReference (Registrations (Spec d')) Scenario.r1 = true /\
    In {| handler.NamespacedName := ("ns", "acme") |} (handler.ToRequests d').
Proof.
  apply (@register_binds Scenario.r1 Fixtures.shared
           (snd (registerDomain Scenario.r1 Fixtures.shared))).
  - intros d. vm_compute. intros H; inversion H; reflexivity.
  - vm_compute. reflexivity.
Defined.

(** When the Domain read holds the reference and the patch goes through,
    [unregisterDomain] reports [(false, nil)] and the stored Domain gets the
    list that was read without the references that match the registration:
    the other references of the list read stay.  Its verification key and
    status are those the store held when the patch arrived, no other Domain
    is written, and the Domain itself is not deleted, even when its list
    becomes empty. *)
Theorem unregister_removes (reg : CustomDomainRegistration) (w : World)
    (d : CustomDomain) (w1 : World) (d' : CustomDomain) (w2 : World) :
  client.Get_CustomDomain (regName reg) w = (Ok d, w1) ->
  slice.ContainsObjectReference (Registrations (Spec d)) reg = true ->
  client.Patch_
    (domain_with_Registrations d
       (slice.RemoveObjectReference (Registrations (Spec d)) reg))
    (client.MergeFrom (DeepCopy d)) w1 = (Ok d', w2) ->
  unregisterDomain reg w = ((false, None), w2) /\
  domains w2 !! client.domain_name d = Some d' /\
  Registrations (Spec d') =
    slice.RemoveObjectReference (Registrations (Spec d)) reg /\
  slice.ContainsObjectReference (Registrations (Spec d')) reg = false /\
  (forall ref, In ref (Registrations (Spec d)) ->
     slice.matches (RegObjectMeta reg) ref = false ->
     In ref (Registrations (Spec d'))) /\
  (exists stored,
     client.domains_at_next_call w1 !! client.domain_name d = Some stored /\
     VerificationKey (Spec d') = VerificationKey (Spec stored) /\
     Status d' = Status stored) /\
  (forall name, name <> client.domain_name d ->
     domains w2 !! name = client.domains_at_next_call w1 !! name).
Proof.
  intros Hget Hin Hpatch.
  pose proof Hpatch as Hok.
  apply Patch_Ok in Hok as ((stored & Hstored & Hd') & Hd & _).
  change (client.domain_name (domain_with_Registrations d _))
    with (client.domain_name d) in Hd, Hstored.
  destruct (@patched_registrations d _ stored (removed_differs _ _ Hin))
    as (Hspec & Hstatus & _).
  simpl client.base in Hd'. rewrite <- Hd' in Hspec, Hstatus.
  assert (Hregs : Registrations (Spec d') =
                  slice.RemoveObjectReference (Registrations (Spec d)) reg)
    by now rewrite Hspec.
  repeat split.
  - unfold unregisterDomain, bind. rewrite Hget, Hin, Hpatch.
    now rewrite Hregs, Contains_Remove.
  - rewrite Hd. apply lookup_insert_eq.
  - exact Hregs.
  - rewrite Hregs. apply Contains_Remove.
  - intros ref Href Hm. rewrite Hregs. unfold slice.RemoveObjectReference.
    apply filter_In. split; [exact Href|]. now rewrite Hm.
  - exists stored. rewrite Hspec. now repeat split.
  - intros name Hne. rewrite Hd. now rewrite lookup_insert_ne by congruence.
Qed.

Lemma unregister_removes_witness :
  let w2 := snd (unregisterDomain Scenario.r1_deleting Fixtures.bound) in
  exists d',
    unregisterDomain Scenario.r1_deleting Fixtures.bound = ((false, None), w2) /\
    domains w2 !! "acme" = Some d' /\
    Registrations (Spec d') = [regRefOf Scenario.r2].
Proof.
  intros w2.
  pose (w1 := client.after_call (GetDomain "acme") Fixtures.bound).
  pose (d := Scenario.domain "acme" [Scenario.r2; Scenario.r1] None).
  pose (d1 := client.patched d
                (domain_with_Registrations d
                   (slice.RemoveObjectReference (Registrations (Spec d))
                      Scenario.r1_deleting)) d).
  destruct (@unregister_removes Scenario.r1_deleting Fixtures.bound d w1 d1 w2)
    as (Hrun & Hd & Hregs & _).
  - reflexivity.
  - reflexivity.
  - vm_compute. reflexivity.
  - exists d1. repeat split; assumption.
Defined.

(** [unregisterDomain] reports [stillRegistered = false] in every outcome,
    and when it returns an error it has written nothing: the world it
    leaves is the one that received its read, or its read and one patch. *)
Theorem unregister_error_writes_nothing (reg : CustomDomainRegistration)
    (w : World) (registered : bool) (e : error) (w' : World) :
  unregisterDomain reg w = ((registered, Some e), w') ->
  let w1 := client.after_call (GetDomain (regName reg)) w in
  registered = false /\
  (w' = w1 \/ exists name, w' = client.after_call (PatchDomain name) w1).
Proof.
  intros Hrun w1. revert Hrun. unfold unregisterDomain, bind.
  destruct (client.Get_CustomDomain (regName reg) w) as [[d|e0] w0] eqn:Hget.
  all: pose proof (Get_CustomDomain_world (regName reg) w) as Hw;
    rewrite Hget in Hw; simpl in Hw; subst w0; fold w1.
  - destruct (slice.ContainsObjectReference _ reg).
    + destruct (client.Patch_ _ _ w1) as [[d'|e1] w2] eqn:Hp; [discriminate|].
      apply Patch_Err in Hp. intros H; inversion H; subst.
      split; [reflexivity|]. right. eauto.
    + discriminate.
  - destruct (apierrors.IsNotFound _); [discriminate|].
    intros H; inversion H; subst. split; [reflexivity|now left].
Qed.

Lemma unregister_error_writes_nothing_witness :
  let w1 := client.after_call (GetDomain "acme") Fixtures.unbinding_fails in
  let w' := snd (unregisterDomain Scenario.r1_deleting Fixtures.unbinding_fails) in
  fst (unregisterDomain Scenario.r1_deleting Fixtures.unbinding_fails) =
    (false, Some (ErrStore "etcd unavailable")) /\
  (w' = w1 \/ exists name, w' = client.after_call (PatchDomain name) w1).
Proof.
  intros w1 w'. split; [reflexivity|].
  apply (@unregister_error_writes_nothing Scenario.r1_deleting
           Fixtures.unbinding_fails false (ErrStore "etcd unavailable") w').
  vm_compute. reflexivity.
Defined.

(** The deletion branch always falls through to the status update with
    exactly one condition, of type [Accepted], whose status is never
    [True]: it is [False] when the finalizer may go and [Unknown] when it
    must stay. *)
Theorem accepted_is_never_true (reg : CustomDomainRegistration) (w : World)
    (b : branch) (w' : World) :
  deletionBranch reg w = (b, w') ->
  exists c doFinalize,
    b = Proceed reg [c] doFinalize /\
    api.Type_ c = RegistrationAccepted /\
    api.Status c <> metav1.ConditionTrue /\
    (doFinalize = true <-> api.Status c = metav1.ConditionFalse) /\
    (doFinalize = false <-> api.Status c = metav1.ConditionUnknown).
Proof.
  destruct (unregisterDomain reg w) as [[registered uerr] w2] eqn:Hun.
  rewrite (deletionBranch_eq _ _ Hun). intros H; inversion H; subst; clear H.
  destruct uerr as [e|].
  - eexists _, _. split; [reflexivity|]. simpl.
    repeat split; congruence.
  - rewrite (unregisterDomain_success _ _ Hun).
    eexists _, _. split; [reflexivity|]. simpl.
    repeat split; congruence.
Qed.

Lemma accepted_is_never_true_witness :
  exists c doFinalize,
    fst (deletionBranch Scenario.r1_deleting Fixtures.unbinding_fails) =
      Proceed Scenario.r1_deleting [c] doFinalize /\
    api.Status c <> metav1.ConditionTrue.
Proof.
  destruct (@accepted_is_never_true Scenario.r1_deleting Fixtures.unbinding_fails
              (fst (deletionBranch Scenario.r1_deleting Fixtures.unbinding_fails))
              (snd (deletionBranch Scenario.r1_deleting Fixtures.unbinding_fails)))
    as (c & f & Hb & _ & Hs & _).
  - vm_compute. reflexivity.
  - exists c, f. split; assumption.
Defined.

End Unbinding.

(** ** Binding, then unbinding *)

Section RoundTrip.

Import controllers.

(** Calls on a quiet cluster: served, with no other writer in between. *)
Lemma Get_CustomDomain_quiet n name w :
  client.undisturbed (S n) (script w) = true ->
  exists w1,
    client.Get_CustomDomain name w =
      (match domains w !! name with Some d => Ok d | None => Err ErrNotFound end, w1) /\
    domains w1 = domains w /\
    client.undisturbed n (script w1) = true.
Proof.
  intros Hq.
  destruct (undisturbed_next n (GetDomain name) w Hq) as (Hf & Hd & Hq1).
  exists (client.after_call (GetDomain name) w). split; [|split; assumption].
  unfold client.Get_CustomDomain, bind, client.begin, ret. rewrite Hf.
  change (domains (client.after_call (GetDomain name) w))
    with (client.domains_at_next_call w).
  rewrite Hd. now destruct (domains w !! name).
Qed.

Lemma Patch_quiet n d based w stored :
  client.undisturbed (S n) (script w) = true ->
  domains w !! client.domain_name d = Some stored ->
  exists w1,
    client.Patch_ d (client.MergeFrom based) w =
      (Ok (client.patched based d stored), w1) /\
    domains w1 =
      <[client.domain_name d := client.patched based d stored]> (domains w) /\
    client.undisturbed n (script w1) = true.
Proof.
  intros Hq Hstored.
  destruct (undisturbed_next n (PatchDomain (client.domain_name d)) w Hq)
    as (Hf & Hd & Hq1).
  unfold client.Patch_, bind, client.begin, ret. rewrite Hf.
  change (domains (client.after_call (PatchDomain (client.domain_name d)) w))
    with (client.domains_at_next_call w).
  rewrite Hd, Hstored. simpl.
  eexists. split; [reflexivity|].
  simpl. split; [reflexivity|exact Hq1].
Qed.

Lemma Create_quiet n d w :
  client.undisturbed (S n) (script w) = true ->
  domains w !! client.domain_name d = None ->
  exists w1,
    client.Create d w = (Ok (domain_with_ResourceVersion d 1), w1) /\
    domains w1 =
      <[client.domain_name d := domain_with_ResourceVersion d 1]> (domains w) /\
    client.undisturbed n (script w1) = true.
Proof.
  intros Hq Hnone.
  destruct (undisturbed_next n (CreateDomain (client.domain_name d)) w Hq)
    as (Hf & Hd & Hq1).
  unfold client.Create, bind, client.begin, ret. rewrite Hf.
  change (domains (client.after_call (CreateDomain (client.domain_name d)) w))
    with (client.domains_at_next_call w).
  rewrite Hd, Hnone. unfold client.put_domain.
  eexists. split; [reflexivity|]. simpl. rewrite Hd. split; [reflexivity|exact Hq1].
Qed.

Lemma Remove_appended refs reg :
  slice.ContainsObjectReference refs reg = false ->
  slice.RemoveObjectReference (refs ++ [regRefOf reg]) reg = refs.
Proof.
  intros Habsent. unfold slice.RemoveObjectReference.
  rewrite List.filter_app. simpl. rewrite matches_regRefOf. simpl.
  rewrite app_nil_r. now apply Remove_absent.
Qed.

(** The unbinding half, on a quiet cluster whose Domain holds the
    reference. *)
Lemma unregister_quiet n reg w d :
  client.undisturbed (S (S n)) (script w) = true ->
  domains w !! regName reg = Some d ->
  client.domain_name d = regName reg ->
  slice.ContainsObjectReference (Registrations (Spec d)) reg = true ->
  exists w2 d2,
    unregisterDomain reg w = ((false, None), w2) /\
    domains w2 = <[regName reg := d2]> (domains w) /\
    Spec d2 = {| Registrations :=
                   slice.RemoveObjectReference (Registrations (Spec d)) reg;
                 VerificationKey := VerificationKey (Spec d) |} /\
    Status d2 = Status d /\
    client.undisturbed n (script w2) = true.
Proof.
  intros Hq Hd Hname Hin.
  destruct (@Get_CustomDomain_quiet (S n) (regName reg) w Hq) as (w1 & Hget & Hd1 & Hq1).
  rewrite Hd in Hget.
  destruct (@Patch_quiet n
              (domain_with_Registrations d
                 (slice.RemoveObjectReference (Registrations (Spec d)) reg))
              (DeepCopy d) w1 d Hq1)
    as (w2 & Hpatch & Hd2 & Hq2).
  { change (client.domain_name (domain_with_Registrations d _))
      with (client.domain_name d). now rewrite Hname, Hd1. }
  change (client.domain_name (domain_with_Registrations d _))
    with (client.domain_name d) in Hd2. rewrite Hname, Hd1 in Hd2.
  destruct (@patched_registrations d _ d (removed_differs _ _ Hin))
    as (Hspec & Hstatus & _).
  eexists w2, _. split; [|split; [exact Hd2|]].
  - unfold unregisterDomain, bind. rewrite Hget, Hin, Hpatch.
    rewrite Hspec. simpl. now rewrite Contains_Remove.
  - repeat split; assumption.
Qed.

(** Round trip on a quiet cluster: binding a registration to a Domain that
    does not list it and then unbinding it gives the Domain back its list,
    its verification key and its status, and leaves the other Domains
    alone. *)
Theorem register_then_unregister (reg : CustomDomainRegistration) (w : World)
    (d : CustomDomain) :
  client.undisturbed 4 (script w) = true ->
  domains w !! regName reg = Some d ->
  client.domain_name d = regName reg ->
  slice.ContainsObjectReference (Registrations (Spec d)) reg = false ->
  exists w1 w2 d2,
    registerDomain reg w = (None, w1) /\
    unregisterDomain reg w1 = ((false, None), w2) /\
    domains w2 !! regName reg = Some d2 /\
    Spec d2 = Spec d /\
    Status d2 = Status d /\
    (forall name, name <> regName reg -> domains w2 !! name = domains w !! name).
Proof.
  intros Hq Hd Hname Habsent.
  destruct (@Get_CustomDomain_quiet 3 (regName reg) w Hq) as (w0 & Hget & Hd0 & Hq0).
  rewrite Hd in Hget.
  set (modified := domain_with_Registrations d
                     (Registrations (Spec d) ++ [regRefOf reg])).
  destruct (@Patch_quiet 2 modified (DeepCopy d) w0 d Hq0)
    as (w1 & Hpatch & Hd1 & Hq1).
  { change (client.domain_name modified) with (client.domain_name d).
    now rewrite Hname, Hd0. }
  change (client.domain_name modified) with (client.domain_name d) in Hd1.
  rewrite Hname, Hd0 in Hd1.
  destruct (@patched_registrations d _ d
              (appended_differs (Registrations (Spec d)) (regRefOf reg)))
    as (Hspec1 & Hstatus1 & Hmeta1 & _).
  fold modified in Hspec1, Hstatus1, Hmeta1.
  set (d1 := client.patched (DeepCopy d) modified d) in *.
  destruct (@unregister_quiet 0 reg w1 d1 Hq1) as (w2 & d2 & Hun & Hd2 & Hs2 & Hst2 & _).
  { rewrite Hd1. apply lookup_insert_eq. }
  { unfold client.domain_name. rewrite Hmeta1. exact Hname. }
  { rewrite Hspec1. simpl. apply Contains_appended. }
  exists w1, w2, d2. repeat split.
  - erewrite registerDomain_absent by eassumption. fold modified.
    now rewrite Hpatch.
  - exact Hun.
  - rewrite Hd2. apply lookup_insert_eq.
  - rewrite Hs2, Hspec1. simpl. rewrite (Remove_appended _ _ Habsent).
    now destruct (Spec d).
  - now rewrite Hst2, Hstatus1.
  - intros name Hne. rewrite Hd2, Hd1.
    now rewrite !lookup_insert_ne by congruence.
Qed.

Lemma register_then_unregister_witness :
  exists w1 w2 d2,
    registerDomain Scenario.r1 Fixtures.shared = (None, w1) /\
    unregisterDomain Scenario.r1 w1 = ((false, None), w2) /\
    domains w2 !! "acme" = Some d2 /\
    Spec d2 = Spec (Scenario.domain "acme" [Scenario.r2] None).
Proof.
  destruct (@register_then_unregister Scenario.r1 Fixtures.shared
              (Scenario.domain "acme" [Scenario.r2] None))
    as (w1 & w2 & d2 & H1 & H2 & H3 & H4 & _).
  - reflexivity.
  - reflexivity.
  - reflexivity.
  - reflexivity.
  - exists w1, w2, d2. repeat split; assumption.
Defined.

(** The Domain created for a first registration outlives it: on a quiet
    cluster with no Domain under the registration's name, binding and then
    unbinding leaves a Domain of that name with an empty list.  Nothing in
    the controller deletes a Domain. *)
Theorem created_domain_outlives_registration (reg : CustomDomainRegistration)
    (w : World) :
  client.undisturbed 4 (script w) = true ->
  domains w !! regName reg = None ->
  exists w1 w2 d2,
    registerDomain reg w = (None, w1) /\
    unregisterDomain reg w1 = ((false, None), w2) /\
    domains w2 !! regName reg = Some d2 /\
    Registrations (Spec d2) = [] /\
    (forall name, name <> regName reg -> domains w2 !! name = domains w !! name).
Proof.
  intros Hq Hnone.
  destruct (@Get_CustomDomain_quiet 3 (regName reg) w Hq) as (w0 & Hget & Hd0 & Hq0).
  rewrite Hnone in Hget.
  set (fresh :=
         {| TypeMeta := zeroTypeMeta;
            ObjectMeta :=
              {| metav1.Name := regName reg; metav1.Namespace := "";
                 metav1.UID := ""; metav1.ResourceVersion := 0;
                 metav1.DeletionTimestamp := None; metav1.Finalizers := [] |};
            Spec := {| Registrations := [regRefOf reg]; VerificationKey := None |};
            Status := zeroStatus |}).
  destruct (@Create_quiet 2 fresh w0 Hq0) as (w1 & Hcreate & Hd1 & Hq1).
  { change (client.domain_name fresh) with (regName reg). now rewrite Hd0. }
  change (client.domain_name fresh) with (regName reg) in Hd1. rewrite Hd0 in Hd1.
  destruct (@unregister_quiet 0 reg w1 (domain_with_ResourceVersion fresh 1) Hq1)
    as (w2 & d2 & Hun & Hd2 & Hs2 & _).
  { rewrite Hd1. apply lookup_insert_eq. }
  { reflexivity. }
  { simpl. unfold slice.ContainsObjectReference. simpl.
    now rewrite matches_regRefOf. }
  exists w1, w2, d2. repeat split.
  - unfold registerDomain, bind. rewrite Hget. simpl. fold fresh.
    now rewrite Hcreate.
  - exact Hun.
  - rewrite Hd2. apply lookup_insert_eq.
  - rewrite Hs2. simpl. unfold slice.RemoveObjectReference. simpl.
    now rewrite matches_regRefOf.
  - intros name Hne. rewrite Hd2, Hd1.
    now rewrite !lookup_insert_ne by congruence.
Qed.

Lemma created_domain_outlives_registration_witness :
  exists w1 w2 d2,
    registerDomain Scenario.r1 (Scenario.world [] [Scenario.r1] []) = (None, w1) /\
    unregisterDomain Scenario.r1 w1 = ((false, None), w2) /\
    domains w2 !! "acme" = Some d2 /\
    Registrations (Spec d2) = [].
Proof.
  destruct (@created_domain_outlives_registration Scenario.r1
              (Scenario.world [] [Scenario.r1] []))
    as (w1 & w2 & d2 & H1 & H2 & H3 & H4 & _).
  - reflexivity.
  - reflexivity.
  - exists w1, w2, d2. repeat split; assumption.
Defined.

End RoundTrip.

(** ** More on verification *)

Section Verification.

Import controllers.

Variable VerificationTokenGenerator : string -> string -> string.
Variable MakeDNSRecordName : string -> outcome string.

(** [verifyDomainIfNeeded] only reads: whatever it returns, it made one read
    of the Domain and no write, and of the registration it was given it
    changes nothing but [status.dnsRecords].  When it returns an error (the
    read failed, not-found included, or the record name could not be
    derived) the registration comes back untouched and [verified] is
    false. *)
Theorem verify_is_read_only (reg : CustomDomainRegistration) (w : World)
    (reg' : CustomDomainRegistration) (verified : bool) (err : option error)
    (w' : World) :
  verifyDomainIfNeeded VerificationTokenGenerator MakeDNSRecordName reg w
    = ((reg', verified, err), w') ->
  w' = client.after_call (GetDomain (regName reg)) w /\
  RegTypeMeta reg' = RegTypeMeta reg /\
  RegObjectMeta reg' = RegObjectMeta reg /\
  Conditions (RegStatus reg') = Conditions (RegStatus reg) /\
  (err <> None -> reg' = reg /\ verified = false).
Proof.
  unfold verifyDomainIfNeeded, bind.
  destruct (client.Get_CustomDomain (regName reg) w) as [[d|e] w1] eqn:Hget.
  all: pose proof (Get_CustomDomain_world (regName reg) w) as Hw;
    rewrite Hget in Hw; simpl in Hw; subst w1.
  - destruct (VerificationKey (Spec d)).
    + destruct (MakeDNSRecordName _).
      * simpl. destruct (lastVerified _) as [[|] t];
          intros H; inversion H; subst; repeat split; congruence.
      * intros H; inversion H; subst. now repeat split.
    + intros H; inversion H; subst. now repeat split.
  - intros H; inversion H; subst. now repeat split.
Qed.

(** With the Domain loaded, its key present and the record name derived,
    the registration gets as [status.dnsRecords] the records the Domain
    advertises followed by one [TXT] record, named by the naming rule and
    valued by the token of the key and the registration's UID.  The records
    the registration held are replaced, so a second call that reads the
    same Domain returns the same registration and verdict: records do not
    pile up from pass to pass. *)
Theorem verify_publishes_record (reg : CustomDomainRegistration) (w : World)
    (d : CustomDomain) (w1 : World) (key name : string) :
  client.Get_CustomDomain (regName reg) w = (Ok d, w1) ->
  VerificationKey (Spec d) = Some key ->
  MakeDNSRecordName (metav1.Name (ObjectMeta d)) = Ok name ->
  exists reg' verified,
    verifyDomainIfNeeded VerificationTokenGenerator MakeDNSRecordName reg w
      = ((reg', verified, None), w1) /\
    RegDNSRecords (RegStatus reg') =
      DNSRecords (LoadBalancer (Status d))
      ++ [ {| Name := name; Type_ := "TXT";
              Value := VerificationTokenGenerator key
                         (metav1.UID (RegObjectMeta reg)) |} ] /\
    forall v v1,
      client.Get_CustomDomain (regName reg') v = (Ok d, v1) ->
      verifyDomainIfNeeded VerificationTokenGenerator MakeDNSRecordName reg' v
        = ((reg', verified, None), v1).
Proof.
  intros Hget Hkey Hname.
  eexists _, _. split; [eapply verify_with_key; eassumption|].
  split; [reflexivity|].
  intros v v1 Hget'.
  erewrite verify_with_key by eassumption. reflexivity.
Qed.

End Verification.

Lemma verify_is_read_only_witness :
  let out := controllers.verifyDomainIfNeeded Scenario.gen Scenario.mk
               Scenario.r1 (Scenario.world [] [Scenario.r1] []) in
  snd out = client.after_call (GetDomain "acme") (Scenario.world [] [Scenario.r1] []) /\
  fst out = (Scenario.r1, false, Some ErrNotFound).
Proof.
  intros out.
  destruct (@verify_is_read_only Scenario.gen Scenario.mk Scenario.r1
              (Scenario.world [] [Scenario.r1] [])
              (fst (fst (fst out))) (snd (fst (fst out))) (snd (fst out)) (snd out))
    as (Hw & _).
  - vm_compute. reflexivity.
  - split; [exact Hw|reflexivity].
Defined.

Lemma verify_publishes_record_witness :
  exists reg' verified,
    controllers.verifyDomainIfNeeded Scenario.gen Scenario.mk Scenario.r1
      Fixtures.keyed
      = ((reg', verified, None), client.after_call (GetDomain "acme") Fixtures.keyed) /\
    RegDNSRecords (RegStatus reg') =
      [ {| Name := "_skygear.acme"; Type_ := "TXT"; Value := "k:u1" |} ].
Proof.
  destruct (@verify_publishes_record Scenario.gen Scenario.mk Scenario.r1
              Fixtures.keyed (Scenario.domain "acme" [Scenario.r1] (Some "k"))
              (client.after_call (GetDomain "acme") Fixtures.keyed)
              "k" "_skygear.acme")
    as (reg' & v & Hrun & Hrec & _).
  - reflexivity.
  - reflexivity.
  - reflexivity.
  - exists reg', v. split; [exact Hrun|]. rewrite Hrec. reflexivity.
Defined.

(** ** More on the pass *)

Section Passes.

Import controllers.

Variable VerificationTokenGenerator : string -> string -> string.
Variable MakeDNSRecordName : string -> outcome string.
Variable DomainFinalizer : string.

Lemma persist_result reg conditions doFinalize w res err w' :
  persist DomainFinalizer reg conditions doFinalize w = ((res, err), w') ->
  res = {| ctrl.Requeue := false |}.
Proof.
  rewrite persist_eq.
  destruct (client.Status_Update _ w) as [[reg1|e] w1]; [|now inversion 1].
  destruct doFinalize; [|now inversion 1].
  destruct (finalizer.Remove reg1 DomainFinalizer w1) as [r w2]. now inversion 1.
Qed.

(** A registration that is not in the store ends the pass at once: no
    error, no requeue, no call but the read, nothing written. *)
Theorem reconcile_absent_registration (req : string * string) (w : World) :
  client.next_fault w = None ->
  registrations w !! req = None ->
  Reconcile VerificationTokenGenerator MakeDNSRecordName DomainFinalizer req w =
    (({| ctrl.Requeue := false |}, None),
     client.after_call (GetRegistration req) w).
Proof.
  intros Hf Hnone.
  apply Reconcile_read_error with (e := ErrNotFound).
  unfold client.Get_CustomDomainRegistration, bind, client.begin, ret.
  rewrite Hf. simpl. now rewrite Hnone.
Qed.

(** [Reconcile] asks for a requeue in one case only: the registration is
    in the store, is not being deleted and lacked the finalizer, which the
    pass has just added.  Such a pass returns no error. *)
Theorem requeue_only_after_adding_finalizer (req : string * string)
    (w : World) (res : ctrl.Result) (err : option error) (w' : World) :
  Reconcile VerificationTokenGenerator MakeDNSRecordName DomainFinalizer req w =
    ((res, err), w') ->
  ctrl.Requeue res = true ->
  err = None /\
  exists reg,
    registrations w !! req = Some reg /\
    metav1.DeletionTimestamp (RegObjectMeta reg) = None /\
    finalizer.has DomainFinalizer reg = false /\
    stored.finalizers w' (key_of reg) =
      Some (metav1.Finalizers (RegObjectMeta reg) ++ [DomainFinalizer]).
Proof.
  intros Hrun Hrequeue.
  destruct (client.Get_CustomDomainRegistration req w) as [[reg|e] w1] eqn:Hget.
  2:{ erewrite Reconcile_read_error in Hrun by eassumption.
      inversion Hrun; subst. discriminate. }
  erewrite Reconcile_branch in Hrun by eassumption.
  destruct (Get_CustomDomainRegistration_Ok _ _ Hget) as [Hw1 Hstored].
  unfold runBranch in Hrun.
  destruct (metav1.DeletionTimestamp (RegObjectMeta reg)) eqn:Hdel.
  { destruct (unregisterDomain reg w1) as [[registered uerr] w2] eqn:Hun.
    erewrite deletionBranch_eq in Hrun by eassumption.
    apply persist_result in Hrun. subst res. discriminate. }
  unfold normalBranch, bind, finalizer.Ensure in Hrun.
  destruct (finalizer.has DomainFinalizer reg) eqn:Hhas.
  - unfold ret at 1 in Hrun.
    destruct (registerDomain reg w1) as [[e|] w2].
    { inversion Hrun; subst. discriminate. }
    destruct (verifyDomainIfNeeded _ _ reg w2) as [[[reg2 v] verr] w3].
    destruct verr; apply persist_result in Hrun; subst res; discriminate.
  - unfold bind in Hrun.
    destruct (client.Update _ w1) as [[r|e] w2] eqn:Hup;
      inversion Hrun; subst; [|discriminate].
    split; [reflexivity|]. exists reg. repeat split; try assumption.
    apply Update_Ok in Hup as (_ & Hfin & _ & Hregs & _).
    unfold stored.finalizers. rewrite Hregs.
    change (key_of (reg_with_ObjectMeta reg _)) with (key_of reg).
    rewrite lookup_insert_eq. simpl. now rewrite Hfin.
Qed.

(** The first pass over a new registration, on a quiet cluster: the
    finalizer is appended to the stored finalizers and the pass stops there
    with a requeue.  It has made no call on any Domain and has left the
    status of the registration as it was. *)
Theorem first_pass_adds_finalizer (req : string * string) (w : World)
    (reg : CustomDomainRegistration) :
  client.undisturbed 2 (script w) = true ->
  registrations w !! req = Some reg ->
  key_of reg = req ->
  metav1.DeletionTimestamp (RegObjectMeta reg) = None ->
  finalizer.has DomainFinalizer reg = false ->
  exists w',
    Reconcile VerificationTokenGenerator MakeDNSRecordName DomainFinalizer req w =
      (({| ctrl.Requeue := true |}, None), w') /\
    stored.finalizers w' req =
      Some (metav1.Finalizers (RegObjectMeta reg) ++ [DomainFinalizer]) /\
    stored.status w' req = Some (RegStatus reg) /\
    domains w' = domains w /\
    calls w' = calls w ++ [GetRegistration req; UpdateRegistration req].
Proof.
  intros Hq Hstored Hkey Hdel Hhas.
  destruct (undisturbed_next 1 (GetRegistration req) w Hq) as (Hf & Hd & Hq1).
  set (w1 := client.after_call (GetRegistration req) w) in *.
  destruct (undisturbed_next 0 (UpdateRegistration req) w1 Hq1) as (Hf1 & Hd1 & _).
  assert (Hget : client.Get_CustomDomainRegistration req w = (Ok reg, w1)).
  { unfold client.Get_CustomDomainRegistration, bind, client.begin, ret.
    rewrite Hf. fold w1. simpl. now rewrite Hstored. }
  erewrite Reconcile_branch by eassumption.
  unfold runBranch. rewrite Hdel.
  unfold normalBranch, bind, finalizer.Ensure. rewrite Hhas.
  unfold bind, client.Update, bind, client.begin, ret.
  change (key_of (reg_with_ObjectMeta reg _)) with (key_of reg).
  rewrite Hkey, Hf1. simpl. rewrite Hstored.
  unfold client.reg_version. simpl. rewrite Nat.eqb_refl.
  unfold client.put_registration. simpl.
  eexists. split; [reflexivity|]. simpl.
  unfold stored.finalizers, stored.status. simpl.
  rewrite lookup_insert_eq. simpl. repeat split.
  - rewrite Hd1. exact Hd.
  - now rewrite <- app_assoc.
Qed.

Lemma verify_keeps_identity reg w reg' verified err w' :
  verifyDomainIfNeeded VerificationTokenGenerator MakeDNSRecordName reg w
    = ((reg', verified, err), w') ->
  RegObjectMeta reg' = RegObjectMeta reg /\
  Conditions (RegStatus reg') = Conditions (RegStatus reg).
Proof.
  unfold verifyDomainIfNeeded, bind.
  destruct (client.Get_CustomDomain (regName reg) w) as [[d|e] w1].
  - destruct (VerificationKey (Spec d)); [|now inversion 1].
    destruct (MakeDNSRecordName _); [|now inversion 1].
    simpl. destruct (lastVerified _) as [[|] t]; now inversion 1.
  - now inversion 1.
Qed.

(** A pass over a registration that is not being deleted never takes a
    finalizer away: whatever the pass returns, the stored registration
    still carries every finalizer it had (the pass may have added its own),
    and no other registration is touched. *)
Theorem live_pass_keeps_finalizers (req : string * string) (w : World)
    (reg : CustomDomainRegistration) (w1 : World)
    (out : ctrl.Result * option error) (w' : World) :
  client.Get_CustomDomainRegistration req w = (Ok reg, w1) ->
  metav1.DeletionTimestamp (RegObjectMeta reg) = None ->
  key_of reg = req ->
  Reconcile VerificationTokenGenerator MakeDNSRecordName DomainFinalizer req w =
    (out, w') ->
  exists fs,
    stored.finalizers w' req = Some fs /\
    (forall f, In f (metav1.Finalizers (RegObjectMeta reg)) -> In f fs) /\
    (forall key, key <> req -> registrations w' !! key = registrations w !! key).
Proof.
  intros Hget Hdel Hkey Hrun. subst req.
  destruct (Get_CustomDomainRegistration_Ok _ _ Hget) as [Hw1 Hstored].
  assert (Hregs1 : registrations w1 = registrations w) by now subst w1.
  assert (Hsame : forall v, registrations v = registrations w ->
            exists fs,
              stored.finalizers v (key_of reg) = Some fs /\
              (forall f, In f (metav1.Finalizers (RegObjectMeta reg)) -> In f fs) /\
              (forall key, key <> key_of reg ->
                 registrations v !! key = registrations w !! key)).
  { intros v Hv. exists (metav1.Finalizers (RegObjectMeta reg)).
    unfold stored.finalizers. rewrite Hv, Hstored. simpl.
    repeat split; auto. }
  erewrite Reconcile_branch in Hrun by eassumption.
  unfold runBranch in Hrun. rewrite Hdel in Hrun.
  unfold normalBranch, bind, finalizer.Ensure in Hrun.
  destruct (finalizer.has DomainFinalizer reg) eqn:Hhas.
  - unfold ret at 1 in Hrun.
    destruct (registerDomain reg w1) as [[e|] w2] eqn:Hreg;
      apply registerDomain_frame in Hreg as [Hregs2 _].
    { inversion Hrun; subst out w'. apply Hsame. congruence. }
    destruct (verifyDomainIfNeeded _ _ reg w2) as [[[reg2 v] verr] w3] eqn:Hver.
    destruct (verify_keeps_identity _ _ Hver) as [Hmeta _].
    apply verify_frame in Hver.
    assert (Hregs3 : registrations w3 = registrations w)
      by (rewrite Hver; simpl; congruence).
    assert (Hpersist : forall conds,
              persist DomainFinalizer reg2 conds false w3 = (out, w') ->
              exists fs,
                stored.finalizers w' (key_of reg) = Some fs /\
                (forall f, In f (metav1.Finalizers (RegObjectMeta reg)) -> In f fs) /\
                (forall key, key <> key_of reg ->
                   registrations w' !! key = registrations w !! key)).
    { intros conds. rewrite persist_eq.
      destruct (client.Status_Update _ w3) as [[reg3|e] w4] eqn:Hsu;
        intros H; inversion H; subst out w'; clear H.
      - exists (metav1.Finalizers (RegObjectMeta reg)).
        rewrite (Status_Update_finalizers _ _ (key_of reg) Hsu).
        unfold stored.finalizers at 1. rewrite Hregs3, Hstored. simpl.
        repeat split; auto.
        intros key Hne.
        apply Status_Update_Ok in Hsu as (_ & _ & _ & _ & _ & Hregs4 & _).
        rewrite Hregs4.
        change (key_of (submitted (clock w3) reg2 conds)) with (key_of reg2).
        unfold key_of at 1. rewrite Hmeta. fold (key_of reg).
        rewrite lookup_insert_ne by congruence. now rewrite Hregs3.
      - apply Status_Update_Err in Hsu. rewrite Hsu. apply Hsame. exact Hregs3. }
    destruct verr; apply (Hpersist _ Hrun).
  - unfold bind in Hrun.
    destruct (client.Update _ w1) as [[r|e] w2] eqn:Hup;
      inversion Hrun; subst out w'; clear Hrun.
    + apply Update_Ok in Hup as (_ & Hfin & _ & Hregs2 & _).
      change (key_of (reg_with_ObjectMeta reg _)) with (key_of reg) in Hregs2.
      simpl in Hfin.
      exists (metav1.Finalizers (RegObjectMeta r)).
      unfold stored.finalizers. rewrite Hregs2, lookup_insert_eq. simpl.
      repeat split.
      * intros f Hf. rewrite Hfin. apply in_or_app. now left.
      * intros key Hne. rewrite lookup_insert_ne by congruence. now rewrite Hregs1.
    + apply Update_Err in Hup. rewrite Hup. apply Hsame. simpl. exact Hregs1.
Qed.

(** A pass over a bound, live registration that returns no error leaves in
    the store a status with exactly one condition, of type [Verified]
    (whatever conditions were there before, [Accepted] included, are
    dropped): [Unknown] with the error message when verification failed,
    the verdict otherwise, with the transition time the merge gives it.
    The [dnsRecords] stored are those verification left on the
    registration. *)
Theorem live_pass_status (req : string * string) (w : World)
    (reg : CustomDomainRegistration) (w1 w2 : World)
    (reg' : CustomDomainRegistration) (verified : bool) (verr : option error)
    (w3 : World) (res : ctrl.Result) (w4 : World) :
  client.Get_CustomDomainRegistration req w = (Ok reg, w1) ->
  metav1.DeletionTimestamp (RegObjectMeta reg) = None ->
  finalizer.has DomainFinalizer reg = true ->
  key_of reg = req ->
  registerDomain reg w1 = (None, w2) ->
  verifyDomainIfNeeded VerificationTokenGenerator MakeDNSRecordName reg w2
    = ((reg', verified, verr), w3) ->
  Reconcile VerificationTokenGenerator MakeDNSRecordName DomainFinalizer req w =
    ((res, None), w4) ->
  let produced :=
    match verr with
    | Some e => condition_of RegistrationVerified metav1.ConditionUnknown (Error e)
    | None => condition_of RegistrationVerified (condition.ToStatus verified) ""
    end in
  stored.status w4 req =
    Some {| Conditions :=
              [condition.merge_one (clock w) (Conditions (RegStatus reg)) produced];
            RegDNSRecords := RegDNSRecords (RegStatus reg') |}.
Proof.
  intros Hget Hdel Hhas Hkey Hreg Hver Hrun produced.
  destruct (Get_CustomDomainRegistration_Ok _ _ Hget) as [Hw1 _].
  destruct (registerDomain_frame _ _ Hreg) as [_ Hclock2].
  destruct (verify_keeps_identity _ _ Hver) as [Hmeta Hconds].
  pose proof (verify_frame _ _ _ _ Hver) as Hw3.
  assert (Hclock : clock w3 = clock w).
  { rewrite Hw3. simpl. rewrite Hclock2, Hw1. reflexivity. }
  erewrite Reconcile_branch in Hrun by eassumption.
  unfold runBranch in Hrun. rewrite Hdel in Hrun.
  erewrite normalBranch_verify in Hrun by eassumption.
  fold produced in Hrun. rewrite persist_eq in Hrun.
  destruct (client.Status_Update _ w3) as [[reg3|e] w5] eqn:Hsu; [|discriminate].
  injection Hrun as _ Hw5. rewrite <- Hw5.
  apply Status_Update_Ok in Hsu as (_ & _ & Hst & _ & _ & Hregs & _).
  change (key_of (submitted (clock w3) reg' [produced])) with (key_of reg') in Hregs.
  assert (Hk : key_of reg' = key_of reg) by (unfold key_of; now rewrite Hmeta).
  rewrite Hk, Hkey in Hregs.
  unfold stored.status. rewrite Hregs, lookup_insert_eq. simpl.
  rewrite Hst. simpl. now rewrite Hconds, Hclock.
Qed.

(** When the write that removes the finalizer fails, the pass returns that
    error, but the status update that preceded it stays: the store holds
    [Accepted = False] for a registration that still carries its
    finalizers. *)
Theorem removal_failure_keeps_status (req : string * string) (w : World)
    (reg : CustomDomainRegistration) (t : metav1.Time) (w1 : World)
    (registered : bool) (w2 : World) (updated : CustomDomainRegistration)
    (w3 : World) (obj : CustomDomainRegistration) (e : error) (w4 : World) :
  client.Get_CustomDomainRegistration req w = (Ok reg, w1) ->
  metav1.DeletionTimestamp (RegObjectMeta reg) = Some t ->
  key_of reg = req ->
  unregisterDomain reg w1 = ((registered, None), w2) ->
  client.Status_Update
    (submitted (clock w2) reg
       [condition_of RegistrationAccepted metav1.ConditionFalse ""]) w2
    = (Ok updated, w3) ->
  finalizer.Remove updated DomainFinalizer w3 = ((obj, Some e), w4) ->
  Reconcile VerificationTokenGenerator MakeDNSRecordName DomainFinalizer req w =
    (({| ctrl.Requeue := false |}, Some e), w4) /\
  stored.conditions w4 req =
    Some (condition.merge (clock w)
            [condition_of RegistrationAccepted metav1.ConditionFalse ""]
            (Conditions (RegStatus reg))) /\
  stored.finalizers w4 req = stored.finalizers w req.
Proof.
  intros Hget Hdel Hkey Hun Hsu Hrem.
  pose proof (unregisterDomain_success _ _ Hun) as ->.
  destruct (Get_CustomDomainRegistration_Ok _ _ Hget) as [Hw1 _].
  destruct (unregisterDomain_frame _ _ Hun) as [Hregs2 Hclock2].
  assert (Hregs : registrations w2 = registrations w) by (rewrite Hregs2; now subst w1).
  assert (Hclock : clock w2 = clock w) by (rewrite Hclock2; now subst w1).
  assert (Hw4 : registrations w4 = registrations w3).
  { revert Hrem. unfold finalizer.Remove, bind.
    destruct (client.Update _ w3) as [[r|e'] w5] eqn:Hup; [discriminate|].
    apply Update_Err in Hup. intros H; inversion H; subst. reflexivity. }
  split.
  - erewrite Reconcile_branch by eassumption.
    unfold runBranch. rewrite Hdel.
    erewrite deletionBranch_eq by eassumption. simpl.
    rewrite persist_eq, Hsu, Hrem. reflexivity.
  - split.
    + pose proof (Status_Update_Ok _ _ Hsu) as (_ & _ & Hst & _ & _ & Hregs3 & _).
      change (key_of (submitted (clock w2) reg _)) with (key_of reg) in Hregs3.
      rewrite Hkey in Hregs3.
      unfold stored.conditions. rewrite Hw4, Hregs3, lookup_insert_eq. simpl.
      rewrite Hst. simpl. now rewrite Hclock.
    + unfold stored.finalizers at 1. rewrite Hw4.
      fold (stored.finalizers w3 req).
      rewrite (Status_Update_finalizers _ _ req Hsu).
      unfold stored.finalizers. now rewrite Hregs.
Qed.

Lemma Status_Update_quiet n r w old :
  client.undisturbed (S n) (script w) = true ->
  registrations w !! key_of r = Some old ->
  client.reg_version old = client.reg_version r ->
  exists r' w',
    client.Status_Update r w = (Ok r', w') /\
    RegStatus r' = RegStatus r /\
    metav1.Finalizers (RegObjectMeta r') = metav1.Finalizers (RegObjectMeta old) /\
    registrations w' = <[key_of r := r']> (registrations w) /\
    domains w' = domains w.
Proof.
  intros Hq Hold Hv.
  destruct (undisturbed_next n (UpdateRegistrationStatus (key_of r)) w Hq)
    as (Hf & Hd & _).
  unfold client.Status_Update, bind, client.begin, ret. rewrite Hf. simpl.
  rewrite Hold, Hv, Nat.eqb_refl. unfold client.put_registration. simpl.
  eexists _, _. split; [reflexivity|]. simpl. now repeat split.
Qed.

(** A converged registration is a fixed point of the pass.  On a quiet
    cluster, for a live registration that carries the finalizer, is listed
    by its Domain and was found unverified by an earlier pass, with no
    verification key on the Domain: the pass returns no error and no
    requeue, every Domain is as before, and the stored status and
    finalizers are as before; in particular the [lastTransitionTime] of
    [Verified] is the earlier one, not the instant of this pass. *)
Theorem converged_pass_changes_nothing (req : string * string) (w : World)
    (reg : CustomDomainRegistration) (d : CustomDomain) (t0 : metav1.Time) :
  client.undisturbed 4 (script w) = true ->
  registrations w !! req = Some reg ->
  key_of reg = req ->
  metav1.DeletionTimestamp (RegObjectMeta reg) = None ->
  finalizer.has DomainFinalizer reg = true ->
  domains w !! regName reg = Some d ->
  slice.ContainsObjectReference (Registrations (Spec d)) reg = true ->
  VerificationKey (Spec d) = None ->
  Conditions (RegStatus reg) =
    [ {| api.Type_ := RegistrationVerified; api.Status := metav1.ConditionFalse;
         api.LastTransitionTime := t0; api.Message := "" |} ] ->
  exists w',
    Reconcile VerificationTokenGenerator MakeDNSRecordName DomainFinalizer req w =
      (({| ctrl.Requeue := false |}, None), w') /\
    domains w' = domains w /\
    stored.status w' req = stored.status w req /\
    stored.finalizers w' req = stored.finalizers w req.
Proof.
  intros Hq Hstored Hkey Hdel Hhas Hd Hin Hnokey Hconds.
  destruct (undisturbed_next 3 (GetRegistration req) w Hq) as (Hf & Hd0 & Hq1).
  set (w1 := client.after_call (GetRegistration req) w) in *.
  assert (Hget : client.Get_CustomDomainRegistration req w = (Ok reg, w1)).
  { unfold client.Get_CustomDomainRegistration, bind, client.begin, ret.
    rewrite Hf. fold w1. simpl. now rewrite Hstored. }
  assert (Hd1 : domains w1 = domains w) by exact Hd0.
  destruct (@Get_CustomDomain_quiet 2 (regName reg) w1 Hq1)
    as (w2 & Hget1 & Hd2 & Hq2).
  rewrite Hd1, Hd in Hget1.
  pose proof (registerDomain_member _ _ Hget1 Hin) as Hreg.
  destruct (@Get_CustomDomain_quiet 1 (regName reg) w2 Hq2)
    as (w3 & Hget2 & Hd3 & Hq3).
  rewrite Hd2, Hd1, Hd in Hget2.
  pose proof (verify_no_key VerificationTokenGenerator MakeDNSRecordName
                _ _ Hget2 Hnokey) as Hver.
  destruct (registerDomain_frame _ _ Hreg) as [Hregs2 Hclock2].
  pose proof (verify_frame _ _ _ _ Hver) as Hw3.
  assert (Hregs3 : registrations w3 = registrations w)
    by (rewrite Hw3; simpl; rewrite Hregs2; reflexivity).
  set (produced := condition_of RegistrationVerified (condition.ToStatus false) "").
  assert (Hsame : RegStatus (submitted (clock w3) reg [produced]) = RegStatus reg).
  { unfold submitted, reg_with_Conditions. simpl. rewrite Hconds. simpl.
    destruct (RegStatus reg) as [conds recs]. simpl in Hconds. now subst conds. }
  destruct (@Status_Update_quiet 0 (submitted (clock w3) reg [produced]) w3 reg Hq3)
    as (r' & w4 & Hsu & Hst & Hfin & Hregs4 & Hd4).
  { change (key_of (submitted (clock w3) reg [produced])) with (key_of reg).
    now rewrite Hkey, Hregs3. }
  { reflexivity. }
  change (key_of (submitted (clock w3) reg [produced])) with (key_of reg) in Hregs4.
  rewrite Hkey in Hregs4.
  exists w4. split; [|split; [|split]].
  - erewrite Reconcile_branch by eassumption.
    unfold runBranch. rewrite Hdel.
    erewrite normalBranch_verify by eassumption.
    rewrite persist_eq.
    change (client.Status_Update (submitted (clock w3) reg _) w3)
      with (client.Status_Update (submitted (clock w3) reg [produced]) w3).
    rewrite Hsu. reflexivity.
  - now rewrite Hd4, Hd3, Hd2.
  - unfold stored.status. rewrite Hregs4, lookup_insert_eq, Hstored. simpl.
    now rewrite Hst, Hsame.
  - unfold stored.finalizers. rewrite Hregs4, lookup_insert_eq, Hstored. simpl.
    now rewrite Hfin.
Qed.

End Passes.

Lemma reconcile_absent_registration_witness :
  Scenario.run Scenario.acme Fixtures.nobody =
    (({| ctrl.Requeue := false |}, None),
     client.after_call (GetRegistration Scenario.acme) Fixtures.nobody).
Proof.
  apply (@reconcile_absent_registration Scenario.gen Scenario.mk Scenario.fin
           Scenario.acme Fixtures.nobody); reflexivity.
Defined.

Lemma requeue_only_after_adding_finalizer_witness :
  exists reg,
    registrations Fixtures.first_pass !! Scenario.acme = Some reg /\
    finalizer.has Scenario.fin reg = false.
Proof.
  destruct (@requeue_only_after_adding_finalizer Scenario.gen Scenario.mk
              Scenario.fin Scenario.acme Fixtures.first_pass
              {| ctrl.Requeue := true |} None
              (snd (Scenario.run Scenario.acme Fixtures.first_pass)))
    as (_ & reg & Hreg & _ & Hhas & _).
  - vm_compute. reflexivity.
  - reflexivity.
  - exists reg. split; assumption.
Defined.

Lemma first_pass_adds_finalizer_witness :
  exists w',
    Scenario.run Scenario.acme Fixtures.first_pass =
      (({| ctrl.Requeue := true |}, None), w') /\
    stored.finalizers w' Scenario.acme = Some [Scenario.fin].
Proof.
  destruct (@first_pass_adds_finalizer Scenario.gen Scenario.mk Scenario.fin
              Scenario.acme Fixtures.first_pass Fixtures.unmarked)
    as (w' & Hrun & Hfin & _).
  - reflexivity.
  - reflexivity.
  - reflexivity.
  - reflexivity.
  - reflexivity.
  - exists w'. split; [exact Hrun|exact Hfin].
Defined.

Lemma live_pass_keeps_finalizers_witness :
  exists fs,
    stored.finalizers (snd (Scenario.run Scenario.acme Fixtures.shared)) Scenario.acme
      = Some fs /\
    In Scenario.fin fs.
Proof.
  destruct (@live_pass_keeps_finalizers Scenario.gen Scenario.mk Scenario.fin
              Scenario.acme Fixtures.shared Scenario.r1
              (client.after_call (GetRegistration Scenario.acme) Fixtures.shared)
              (fst (Scenario.run Scenario.acme Fixtures.shared))
              (snd (Scenario.run Scenario.acme Fixtures.shared)))
    as (fs & Hfs & Hkeeps & _).
  - reflexivity.
  - reflexivity.
  - reflexivity.
  - vm_compute. reflexivity.
  - exists fs. split; [exact Hfs|]. apply Hkeeps. left. reflexivity.
Defined.

Lemma live_pass_status_witness :
  stored.status (snd (Scenario.run Scenario.acme Fixtures.keyed)) Scenario.acme =
    Some {| Conditions :=
              [ {| api.Type_ := "Verified"; api.Status := metav1.ConditionFalse;
                   api.LastTransitionTime := 9; api.Message := "" |} ];
            RegDNSRecords :=
              [ {| Name := "_skygear.acme"; Type_ := "TXT"; Value := "k:u1" |} ] |}.
Proof.
  pose (w1 := client.after_call (GetRegistration Scenario.acme) Fixtures.keyed).
  pose (w2 := client.after_call (GetDomain "acme") w1).
  pose (w3 := client.after_call (GetDomain "acme") w2).
  pose (reg' := reg_with_DNSRecords Scenario.r1
                  [ {| Name := "_skygear.acme"; Type_ := "TXT"; Value := "k:u1" |} ]).
  rewrite (@live_pass_status Scenario.gen Scenario.mk Scenario.fin
             Scenario.acme Fixtures.keyed Scenario.r1 w1 w2 reg' false None w3
             {| ctrl.Requeue := false |}
             (snd (Scenario.run Scenario.acme Fixtures.keyed))).
  - reflexivity.
  - reflexivity.
  - reflexivity.
  - reflexivity.
  - reflexivity.
  - vm_compute. reflexivity.
  - vm_compute. reflexivity.
  - vm_compute. reflexivity.
Defined.

Lemma removal_failure_keeps_status_witness :
  exists w4,
    Scenario.run Scenario.acme Fixtures.removal_fails =
      (({| ctrl.Requeue := false |}, Some (ErrStore "etcd unavailable")), w4) /\
    stored.conditions w4 Scenario.acme =
      Some (condition.merge 9
              [controllers.condition_of RegistrationAccepted metav1.ConditionFalse ""]
              []) /\
    stored.finalizers w4 Scenario.acme = Some [Scenario.fin].
Proof.
  pose (w1 := client.after_call (GetRegistration Scenario.acme) Fixtures.removal_fails).
  pose (w2 := snd (controllers.unregisterDomain Scenario.r1_deleting w1)).
  pose (su := client.Status_Update
                (controllers.submitted (clock w2) Scenario.r1_deleting
                   [controllers.condition_of RegistrationAccepted
                      metav1.ConditionFalse ""]) w2).
  pose (updated := match fst su with Ok r => r | Err _ => Scenario.r1_deleting end).
  pose (rm := finalizer.Remove updated Scenario.fin (snd su)).
  destruct (@removal_failure_keeps_status Scenario.gen Scenario.mk Scenario.fin
              Scenario.acme Fixtures.removal_fails Scenario.r1_deleting 5 w1
              false w2 updated (snd su) (fst (fst rm))
              (ErrStore "etcd unavailable") (snd rm))
    as (Hrun & Hconds & Hfin).
  - reflexivity.
  - reflexivity.
  - reflexivity.
  - vm_compute. reflexivity.
  - vm_compute. reflexivity.
  - vm_compute. reflexivity.
  - exists (snd rm). split; [exact Hrun|]. split; [exact Hconds|].
    rewrite Hfin. reflexivity.
Defined.

Lemma converged_pass_changes_nothing_witness :
  exists w',
    Scenario.run Scenario.acme Fixtures.converged =
      (({| ctrl.Requeue := false |}, None), w') /\
    domains w' = domains Fixtures.converged /\
    stored.status w' Scenario.acme = stored.status Fixtures.converged Scenario.acme.
Proof.
  destruct (@converged_pass_changes_nothing Scenario.gen Scenario.mk Scenario.fin
              Scenario.acme Fixtures.converged Fixtures.settled
              (Scenario.domain "acme" [Scenario.r1] None) 3)
    as (w' & Hrun & Hd & Hst & _).
  - reflexivity.
  - reflexivity.
  - reflexivity.
  - reflexivity.
  - reflexivity.
  - reflexivity.
  - reflexivity.
  - reflexivity.
  - reflexivity.
  - exists w'. repeat split; assumption.
Defined.
